(** * ASIC Gazette scraper: a shallow embedding of [mainGazzette2020.py]

    The development follows the source file top to bottom: the Python
    string primitives the scraper relies on, the text and URL normaliser,
    the cell link extractor, the row and table parsers, the schema
    widener and the orchestrator.  The DOM that Selenium exposes is
    modelled as plain data (cells, links, rows, tables, anchors); a read
    of an element that raises is the [None] of an [option]. *)

From Stdlib Require Import List String Ascii Bool Arith NArith Lia.
From Stdlib Require Import Permutation DecimalString DecimalNat.
Import ListNotations.
Open Scope string_scope.
Open Scope list_scope.

Set Implicit Arguments.

(** ** Python strings *)

(** A Python [str] is a sequence of Unicode code points.  Field names of
    the records are ASCII literals and are kept as Rocq strings. *)
Module PyStr.

Definition char := N.
Definition str := list char.

(** An ASCII literal as a [str]. *)
Definition lit (s : string) : str :=
  List.map N_of_ascii (list_ascii_of_string s).

Definition eqb (a b : str) : bool :=
  if list_eq_dec N.eq_dec a b then true else false.

(** Truth value of a string: empty strings are falsy. *)
Definition truthy (s : str) : bool :=
  match s with [] => false | _ :: _ => true end.

(** [str.isspace] on one character: the code points CPython treats as
    whitespace in [split] and [strip]. *)
Definition isspace (c : char) : bool :=
  ((9 <=? c) && (c <=? 13) || (28 <=? c) && (c <=? 32)
   || (c =? 133) || (c =? 160) || (c =? 5760)
   || (8192 <=? c) && (c <=? 8202)
   || (c =? 8232) || (c =? 8233) || (c =? 8239) || (c =? 8287)
   || (c =? 12288))%N.

(** [s.startswith(p)] *)
Fixpoint startswith (p s : str) : bool :=
  match p, s with
  | [], _ => true
  | _ :: _, [] => false
  | a :: p', b :: s' => (a =? b)%N && startswith p' s'
  end.

(** [p in s] *)
Fixpoint contains (p s : str) : bool :=
  startswith p s ||
  match s with
  | [] => false
  | _ :: s' => contains p s'
  end.

(** [s.replace(old, new)] for a non-empty [old]: scan left to right,
    every match is replaced and the scan resumes after it. [skip]
    counts the characters of the current match still to be consumed. *)
Fixpoint replace_from (old new : str) (skip : nat) (s : str) : str :=
  match s with
  | [] => []
  | c :: s' =>
      match skip with
      | S k => replace_from old new k s'
      | O =>
          if startswith old s
          then new ++ replace_from old new (List.length old - 1) s'
          else c :: replace_from old new 0 s'
      end
  end.

Definition replace (old new s : str) : str := replace_from old new 0 s.

(** Helper of [split]: push a character on the first word. *)
Definition cons_word (c : char) (ws : list str) : list str :=
  match ws with
  | [] => [[c]]
  | w :: ws' => (c :: w) :: ws'
  end.

(** [s.split()]: the maximal runs of non-whitespace characters. *)
Fixpoint split (s : str) : list str :=
  match s with
  | [] => []
  | c :: s' =>
      if isspace c then split s'
      else match s' with
           | [] => [[c]]
           | d :: _ => if isspace d then [c] :: split s'
                       else cons_word c (split s')
           end
  end.

(** [sep.join(ws)] *)
Fixpoint join (sep : str) (ws : list str) : str :=
  match ws with
  | [] => []
  | [w] => w
  | w :: ws' => w ++ sep ++ join sep ws'
  end.

Fixpoint lstrip (s : str) : str :=
  match s with
  | [] => []
  | c :: s' => if isspace c then lstrip s' else s
  end.

Fixpoint rstrip (s : str) : str :=
  match s with
  | [] => []
  | c :: s' =>
      match rstrip s' with
      | [] => if isspace c then [] else [c]
      | t => c :: t
      end
  end.

(** [s.strip()] *)
Definition strip (s : str) : str := rstrip (lstrip s).

(** [f'{i}'] for a non-negative integer. *)
Definition string_of_nat (i : nat) : string :=
  NilEmpty.string_of_uint (Nat.to_uint i).

End PyStr.
Import PyStr.

(** ** 4.1 Text / URL normaliser *)

(** [_clean_text]: [None] and the empty string give the empty string. *)
Definition clean_text (text : option str) : str :=
  match text with
  | None => []
  | Some t =>
      if negb (truthy t) then []
      else
        let cleaned := replace (lit "&nbsp;") (lit " ") (replace [160%N] (lit " ") t) in
        strip (join (lit " ") (split cleaned))
  end.

(** The part of the Python runtime and of the scraper configuration the
    modelled code reads: [config.base_url], [urllib.parse.urljoin]
    ([None] when it raises [ValueError], as it does on a malformed
    reference such as ["//["]), [str.lower] and the Unicode database entry
    of a non-ASCII character ([Some (true, v)] for a decimal digit of
    value [v], [Some (false, v)] for a digit that [int] does not
    accept). *)
Record Runtime := {
  base_url : str;
  urljoin : str -> str -> option str;
  lower : str -> str;
  unicode_digit : char -> option (bool * N)
}.

(** ** Records as insertion-ordered dictionaries *)

Definition dict := list (string * str).

Fixpoint dict_set (k : string) (v : str) (d : dict) : dict :=
  match d with
  | [] => [(k, v)]
  | (k', v') :: d' =>
      if String.eqb k k' then (k, v) :: d' else (k', v') :: dict_set k v d'
  end.

Fixpoint dict_get (k : string) (d : dict) : option str :=
  match d with
  | [] => None
  | (k', v) :: d' => if String.eqb k k' then Some v else dict_get k d'
  end.

(** [d.get(k, default)] *)
Definition dict_get_default (k : string) (default : str) (d : dict) : str :=
  match dict_get k d with
  | Some v => v
  | None => default
  end.

Definition dict_keys (d : dict) : list string := List.map fst d.

(** Truth value of a list: empty lists are falsy. *)
Definition truthy_list (A : Type) (l : list A) : bool :=
  match l with [] => false | _ :: _ => true end.

(** [enumerate(l)] *)
Definition enumerate (A : Type) (l : list A) : list (nat * A) :=
  combine (seq 0 (List.length l)) l.

(** ** The DOM as the scraper reads it *)

(** Every read of an element is an [option]: [None] stands for the call
    raising (a detached element).  [link_href] is
    [link.get_attribute("href")], which is [None] inside when the
    attribute is absent. *)
Record Link := {
  link_text : option str;
  link_href : option (option str)
}.

Record Cell := {
  cell_text : option str;
  cell_links : option (list Link)
}.

(** A [tr] element: whether [row.find_elements(By.TAG_NAME, "th")]
    finds a [th], and its [td] cells; [None] when the lookup raises. *)
Record Row := {
  row_has_th : option bool;
  row_cells : option (list Cell)
}.

(** What the row lookup of [_extract_table_data] meets: a [tbody] with
    its rows, no [tbody] and the [tr] elements found directly under the
    table, or a lookup that raises. *)
Inductive TableRows :=
| Tbody (rows : list Row)
| NoTbody (rows : list Row)
| BrokenTable.

(** A [table] element: [table.is_displayed()], [None] when the call
    raises, and its rows. *)
Record Table := {
  table_displayed : option bool;
  table_rows : TableRows
}.

(** ** Schema State *)

Inductive Column := ASIC | Business | Other.

Record MaxLinks := {
  ml_asic : nat;
  ml_business : nat;
  ml_other : nat
}.

Definition ml_get (col : Column) (ml : MaxLinks) : nat :=
  match col with
  | ASIC => ml_asic ml
  | Business => ml_business ml
  | Other => ml_other ml
  end.

(** [ASICGazetteScraper.__init__] *)
Definition max_links_init : MaxLinks :=
  {| ml_asic := 1; ml_business := 1; ml_other := 1 |}.

Record Scraper := {
  all_data : list dict;
  max_links : MaxLinks
}.

Definition scraper_init : Scraper :=
  {| all_data := []; max_links := max_links_init |}.

(** ** Exceptions of the DOM reads *)

Definition Exc (A : Type) := option A.

Notation "x <- e ;; k" :=
  (match e with Some x => k | None => None end)
  (at level 61, e at next level, right associativity).

(** A [for] loop whose body may raise. *)
Fixpoint for_each (A S : Type) (body : S -> A -> Exc S) (l : list A) (s : S)
  : Exc S :=
  match l with
  | [] => Some s
  | a :: l' => s' <- body s a ;; for_each body l' s'
  end.

(** [try: ... except Exception: return default] *)
Definition try_except (A : Type) (body : Exc A) (default : A) : A :=
  match body with
  | Some a => a
  | None => default
  end.

Section Extraction.

Variable py : Runtime.

(** [_resolve_url]; it raises when [urljoin] does. *)
Definition resolve_url (url : str) : Exc str :=
  if negb (truthy url) then Some []
  else if startswith (lit "http") url then Some url
  else urljoin py (base_url py) url.

(** ** 4.2 Cell link extractor *)

(** [_extract_cell_content]: the cleaned text of the cell and the
    resolved URLs of its links that carry a non-empty [href]. *)
Definition extract_cell_content (cell : Cell) : str * list str :=
  try_except
    (text <- cell_text cell ;;
     let full_text := clean_text (Some text) in
     links <- cell_links cell ;;
     urls <- for_each
               (fun urls link =>
                  url <- link_href link ;;
                  match url with
                  | Some u =>
                      if truthy u then
                        resolved_url <- resolve_url (strip u) ;;
                        Some (urls ++ [resolved_url])
                      else Some urls
                  | None => Some urls
                  end)
               links [] ;;
     Some (full_text, urls))
    ([], []).

(** [_extract_multiple_links_data]: the non-empty cleaned link texts
    and, separately, the resolved non-empty [href]s. *)
Definition extract_multiple_links_data (cell : Cell) : list str * list str :=
  try_except
    (links <- cell_links cell ;;
     match links with
     | [] => Some ([], [])
     | _ :: _ =>
         for_each
           (fun '(titles, urls) link =>
              text <- link_text link ;;
              let title := clean_text (Some text) in
              url <- link_href link ;;
              let titles := if truthy title then titles ++ [title] else titles in
              match url with
              | Some u =>
                  if truthy u then
                    resolved_url <- resolve_url (strip u) ;;
                    Some (titles, urls ++ [resolved_url])
                  else Some (titles, urls)
              | None => Some (titles, urls)
              end)
           links ([], [])
     end)
    ([], []).

(** ** 4.3 Row parser *)

(** Lines 162-184 and 186-208, the same block for the two Gazette
    columns: the titles and URLs of the cell after the defaults for a
    cell without link titles. *)
Definition gazette_titles_urls (cell : Cell) : list str * list str :=
  let '(text, _) := extract_cell_content cell in
  let '(titles, link_urls) := extract_multiple_links_data cell in
  if negb (truthy_list titles) && truthy text then ([text], [[]])
  else if negb (truthy_list titles) then ([[]], [[]])
  else (titles, link_urls).

(** The [for i, (title, url) in enumerate(zip(titles, urls))] loop that
    stores a Gazette column, [col] being ['ASIC Gazette'] or
    ['Business Gazette']. *)
Definition store_gazette (col : string) (titles urls : list str)
    (result : dict) : dict :=
  fold_left
    (fun result '(i, (title, url)) =>
       if (i =? 0)%nat then
         dict_set (col ++ "_Url")%string url
           (dict_set (col ++ "_title")%string title result)
       else
         dict_set (col ++ "_Url_" ++ string_of_nat i)%string url
           (dict_set (col ++ "_" ++ string_of_nat i)%string title result))
    (enumerate (combine titles urls)) result.

(** Placeholder of [nth]; the indices read are always in range. *)
Definition no_cell : Cell := {| cell_text := None; cell_links := None |}.

(** Lines 210-248: the text entries and URLs of the Other / Notes
    column, by row width. *)
Definition notes_texts_urls (cells : list Cell) : list str * list str :=
  if (List.length cells =? 4)%nat then
    let '(notes_text, _) := extract_cell_content (nth 3 cells no_cell) in
    let '(_, notes_link_urls) :=
      extract_multiple_links_data (nth 3 cells no_cell) in
    if truthy notes_text then
      ([notes_text],
       if truthy_list notes_link_urls then notes_link_urls else [[]])
    else ([], [])
  else if (5 <=? List.length cells)%nat then
    let '(other_text, _) := extract_cell_content (nth 3 cells no_cell) in
    let '(_, other_link_urls) :=
      extract_multiple_links_data (nth 3 cells no_cell) in
    let '(notes_text, _) := extract_cell_content (nth 4 cells no_cell) in
    let '(_, notes_link_urls) :=
      extract_multiple_links_data (nth 4 cells no_cell) in
    let combined_texts :=
      (if truthy other_text then [other_text] else [])
      ++ (if truthy notes_text then [notes_text] else []) in
    let combined_urls :=
      (if truthy_list other_link_urls then other_link_urls else [])
      ++ (if truthy_list notes_link_urls then notes_link_urls else []) in
    if truthy_list combined_texts then
      ([join (lit ". ") combined_texts], combined_urls)
    else ([], [])
  else ([], []).

(** [other_notes_urls[i] if i < len(other_notes_urls) else ""] *)
Definition url_at (urls : list str) (i : nat) : str :=
  if (i <? List.length urls)%nat then nth i urls [] else [].

(** Lines 250-265: storing the Other / Notes column. *)
Definition store_notes (texts urls : list str) (result : dict) : dict :=
  if truthy_list texts then
    let result :=
      fold_left
        (fun result '(i, text) =>
           if (i =? 0)%nat then
             dict_set "Other / Notes_URL" (url_at urls i)
               (dict_set "Other / Notes" text result)
           else
             dict_set ("Other / Notes_URL_" ++ string_of_nat i)%string
               (url_at urls i)
               (dict_set ("Other / Notes_" ++ string_of_nat i)%string text
                  result))
        (enumerate texts) result in
    fold_left
      (fun result i =>
         dict_set ("Other / Notes_URL_" ++ string_of_nat i)%string
           (nth i urls []) result)
      (seq (List.length texts) (List.length urls - List.length texts))
      result
  else
    dict_set "Other / Notes_URL" [] (dict_set "Other / Notes" [] result).

(** [_extract_row_data]: the record of the row, or [None], and the
    Schema State after the row. *)
Definition extract_row_data (row : Row) (year : str) (ml : MaxLinks)
  : option dict * MaxLinks :=
  match row_cells row with
  | None => (None, ml)
  | Some cells =>
      if (List.length cells <? 4)%nat then (None, ml)
      else
        match cell_text (nth 0 cells no_cell) with
        | None => (None, ml)
        | Some text0 =>
            let date := clean_text (Some text0) in
            let result := [("Year", year); ("Date", date)] in
            let '(asic_titles, asic_link_urls) :=
              gazette_titles_urls (nth 1 cells no_cell) in
            let result :=
              store_gazette "ASIC Gazette" asic_titles asic_link_urls result in
            let asic := Nat.max (ml_asic ml) (List.length asic_titles) in
            let '(business_titles, business_link_urls) :=
              gazette_titles_urls (nth 2 cells no_cell) in
            let result :=
              store_gazette "Business Gazette" business_titles
                business_link_urls result in
            let business :=
              Nat.max (ml_business ml) (List.length business_titles) in
            let '(other_notes_texts, other_notes_urls) :=
              notes_texts_urls cells in
            let result :=
              store_notes other_notes_texts other_notes_urls result in
            let max_other_items :=
              Nat.max (List.length other_notes_texts)
                (List.length other_notes_urls) in
            let other := Nat.max (ml_other ml) max_other_items in
            (Some result,
             {| ml_asic := asic; ml_business := business; ml_other := other |})
        end
  end.

(** ** 4.4 Table parser *)

(** [if row_data:] *)
Definition truthy_row (row_data : option dict) : bool :=
  match row_data with
  | Some (_ :: _) => true
  | _ => false
  end.

(** The loop of lines 292-295 over the rows that were looked up. *)
Definition extract_rows (rows : list Row) (year : str) (ml : MaxLinks)
  : list dict * MaxLinks :=
  fold_left
    (fun '(data_rows, ml) row =>
       let '(row_data, ml') := extract_row_data row year ml in
       match row_data with
       | Some d => if truthy_row row_data then (data_rows ++ [d], ml')
                   else (data_rows, ml')
       | None => (data_rows, ml')
       end)
    rows ([], ml).

(** Line 290, [[row for row in rows if not row.find_elements(By.TAG_NAME,
    "th")]]: it raises as soon as the lookup raises on one row. *)
Definition rows_without_th (rows : list Row) : Exc (list Row) :=
  for_each
    (fun kept row =>
       has_th <- row_has_th row ;;
       Some (if has_th then kept else kept ++ [row]))
    rows [].

(** [_extract_table_data]: the header filter of a table without [tbody]
    runs before the loop over the rows and under the table-level [try]
    only. *)
Definition extract_table_data (table : Table) (year : str) (ml : MaxLinks)
  : list dict * MaxLinks :=
  match table_rows table with
  | Tbody rows => extract_rows rows year ml
  | NoTbody rows =>
      try_except
        (rows <- rows_without_th rows ;;
         Some (extract_rows rows year ml))
        ([], ml)
  | BrokenTable => ([], ml)
  end.

End Extraction.

(** ** 4.5 Section locator *)

(** An element met while walking the [nextElementSibling] chain. *)
Inductive Sibling :=
| SiblingTable (t : Table)
| SiblingOther.

(** The first match of an expand/collapse content selector:
    [content_area.is_displayed()] and the first table under the match.
    A call that raises sends the loop over the selectors to the next
    selector, as a match that is not displayed or has no table does:
    [false] and [None] stand for it too. *)
Record ContentArea := {
  area_displayed : bool;
  area_table : option Table
}.

(** A year anchor, with what the table association queries return once
    the anchor has been expanded: the first table under its parent
    ([None] when there is none or a lookup raises), the elements the walk
    over its following siblings meets (the walk ends where the chain ends
    or a call raises; both end the list), the first match of each content
    selector and the tables of the page. *)
Record Element := {
  elem_text : str;
  elem_aria_expanded : option str;
  elem_parent_table : option Table;
  elem_next_siblings : list Sibling;
  elem_content_area : string -> option ContentArea;
  elem_tables : list Table
}.

(** The rendered page as the discovery cascade queries it. *)
Record Page := {
  page_css : string -> list Element;
  page_text_elements : list Element;
  page_source : str;
  page_accordion_containers : list (list Element);
  page_tables : list Table
}.

Definition year_tokens : list string :=
  ["2020"; "2019"; "2018"; "2017"; "2016"; "2015"; "2014"; "2013"; "2012";
   "2011"].

Definition selectors_to_try : list string :=
  ["button[aria-expanded]"; ".accordion-button"; ".year-header"; "h2 button";
   "h3 button"; "[data-bs-toggle='collapse']"; "[data-toggle='collapse']";
   "a[href*='#']"].

Definition content_selectors : list string :=
  ["[id*='collapse']"; "[class*='collapse']"; "[class*='accordion-content']";
   "[class*='content']"].

(** [range(a, b)] *)
Definition range (a b : nat) : list nat := seq a (b - a).

Section Orchestration.

Variable py : Runtime.

(** Strategy 2 of [_extract_year_data]: a table among the next five
    siblings. *)
Fixpoint first_sibling_table (siblings : list Sibling) : option Table :=
  match siblings with
  | [] => None
  | SiblingTable t :: _ => Some t
  | SiblingOther :: rest => first_sibling_table rest
  end.

(** Strategy 3: the table of the first displayed content area that
    holds one. *)
Fixpoint first_content_table (elem : Element) (selectors : list string)
  : option Table :=
  match selectors with
  | [] => None
  | selector :: rest =>
      match elem_content_area elem selector with
      | Some area =>
          if area_displayed area then
            match area_table area with
            | Some t => Some t
            | None => first_content_table elem rest
            end
          else first_content_table elem rest
      | None => first_content_table elem rest
      end
  end.

(** Strategy 4: the first displayed table of the page; the walk ends
    without a table when [is_displayed] raises. *)
Fixpoint first_displayed_table (tables : list Table) : option Table :=
  match tables with
  | [] => None
  | t :: rest =>
      match table_displayed t with
      | Some true => Some t
      | Some false => first_displayed_table rest
      | None => None
      end
  end.

(** The table association cascade of [_extract_year_data]. *)
Definition find_table (elem : Element) : option Table :=
  match elem_parent_table elem with
  | Some t => Some t
  | None =>
      match first_sibling_table (firstn 5 (elem_next_siblings elem)) with
      | Some t => Some t
      | None =>
          match first_content_table elem content_selectors with
          | Some t => Some t
          | None => first_displayed_table (elem_tables elem)
          end
      end
  end.

(** [_extract_year_data] *)
Definition extract_year_data (year_element : Element) (year : str)
    (ml : MaxLinks) : list dict * MaxLinks :=
  match find_table year_element with
  | None => ([], ml)
  | Some table => extract_table_data py table year ml
  end.

(** [any(year_str in text for year_str in [...])] *)
Definition has_year_token (text : str) : bool :=
  existsb (fun year_str => contains (lit year_str) text) year_tokens.

(** Lines 514-519: the first token found in the text, else
    ["Unknown"]. *)
Definition year_label (year_text : str) : str :=
  match find (fun potential_year => contains (lit potential_year) year_text)
          year_tokens with
  | Some potential_year => lit potential_year
  | None => lit "Unknown"
  end.

(** The digit entry of a character: the ASCII digits, and what the
    Unicode database says outside ASCII. *)
Definition char_digit (c : char) : option (bool * N) :=
  if ((48 <=? c) && (c <=? 57))%N then Some (true, (c - 48)%N)
  else if (c <? 128)%N then None
  else unicode_digit py c.

(** [text.isdigit()] *)
Definition isdigit (text : str) : bool :=
  truthy text
  && forallb (fun c => match char_digit c with Some _ => true | None => false end)
       text.

(** [int(text)] on a string of digit characters; it raises on a digit
    that is not a decimal digit. *)
Definition int_of_digits (text : str) : Exc N :=
  fold_left
    (fun acc c =>
       n <- acc ;;
       match char_digit c with
       | Some (true, v) => Some (10 * n + v)%N
       | _ => None
       end)
    text (Some 0%N).

(** [text.isdigit() and len(text) == 4 and 2011 <= int(text) <= 2025] *)
Definition is_year_text (text : str) : Exc bool :=
  if isdigit text && (List.length text =? 4)%nat then
    n <- int_of_digits text ;;
    Some ((2011 <=? n) && (n <=? 2025))%N
  else Some false.

(** Approach 1: the matches of the first selector that has any. *)
Fixpoint clickable_year_elements (page : Page) (selectors : list string)
  : list Element :=
  match selectors with
  | [] => []
  | selector :: rest =>
      let year_elements :=
        filter (fun elem => has_year_token (clean_text (Some (elem_text elem))))
          (page_css page selector) in
      if truthy_list year_elements then year_elements
      else clickable_year_elements page rest
  end.

(** Approach 2: elements whose whole text is a year. *)
Definition year_text_elements (page : Page) : Exc (list Element) :=
  for_each
    (fun year_elements elem =>
       keep <- is_year_text (clean_text (Some (elem_text elem))) ;;
       Some (if keep then year_elements ++ [elem] else year_elements))
    (page_text_elements page) [].

(** Approach 3: elements under accordion containers. *)
Definition accordion_year_elements (page : Page) : list Element :=
  if contains (lit "accordion") (lower py (page_source page)) then
    fold_left (fun year_elements year_buttons => year_elements ++ year_buttons)
      (page_accordion_containers page) []
  else [].

(** The year-anchor discovery cascade of [scrape_data]. *)
Definition find_year_elements (page : Page) : Exc (list Element) :=
  let year_elements := clickable_year_elements page selectors_to_try in
  year_elements <-
    (if negb (truthy_list year_elements) then year_text_elements page
     else Some year_elements) ;;
  Some (if negb (truthy_list year_elements) then accordion_year_elements page
        else year_elements).

(** Lines 486-493: the first three tables, labelled by index. *)
Definition process_tables (tables : list Table) (self : Scraper) : Scraper :=
  fold_left
    (fun self '(i, table) =>
       let '(table_data, ml) :=
         extract_table_data py table
           (lit ("Table_" ++ string_of_nat i)%string) (max_links self) in
       {| all_data := all_data self ++ table_data; max_links := ml |})
    (enumerate (firstn 3 tables)) self.

(** Lines 498-531: one anchor after the other. *)
Definition process_year_elements (year_elements : list Element)
    (self : Scraper) : Scraper :=
  fold_left
    (fun self year_elem =>
       let year_text := clean_text (Some (elem_text year_elem)) in
       let year := year_label year_text in
       let '(year_data, ml) :=
         extract_year_data year_elem year (max_links self) in
       {| all_data := all_data self ++ year_data; max_links := ml |})
    year_elements self.

(** [scrape_data]: the records returned, [None] when an exception
    leaves the method, and the scraper afterwards. *)
Definition scrape_data (page : Page) (self : Scraper)
  : Exc (list dict) * Scraper :=
  match find_year_elements page with
  | None => (None, self)
  | Some year_elements =>
      if negb (truthy_list year_elements) then
        let self :=
          if truthy_list (page_tables page)
          then process_tables (page_tables page) self
          else self in
        (Some (all_data self), self)
      else
        let self := process_year_elements year_elements self in
        (Some (all_data self), self)
  end.

End Orchestration.

(** ** 4.6 Schema widener / normaliser *)

(** [_generate_csv_headers] *)
Definition generate_csv_headers (ml : MaxLinks) : list string :=
  let headers := ["Year"; "Date"] in
  let headers := headers ++ ["ASIC Gazette_title"; "ASIC Gazette_Url"] in
  let headers :=
    fold_left
      (fun headers i =>
         headers ++ [("ASIC Gazette_" ++ string_of_nat i)%string;
                     ("ASIC Gazette_Url_" ++ string_of_nat i)%string])
      (range 1 (ml_asic ml)) headers in
  let headers := headers ++ ["Business Gazette_title"; "Business Gazette_Url"] in
  let headers :=
    fold_left
      (fun headers i =>
         headers ++ [("Business Gazette_" ++ string_of_nat i)%string;
                     ("Business Gazette_Url_" ++ string_of_nat i)%string])
      (range 1 (ml_business ml)) headers in
  let headers := headers ++ ["Other / Notes"; "Other / Notes_URL"] in
  let headers :=
    fold_left
      (fun headers i =>
         headers ++ [("Other / Notes_" ++ string_of_nat i)%string;
                     ("Other / Notes_URL_" ++ string_of_nat i)%string])
      (range 1 (ml_other ml)) headers in
  headers.

(** [_normalize_row_data] *)
Definition normalize_row_data (row_data : dict) (headers : list string) : dict :=
  fold_left
    (fun normalized header =>
       dict_set header (dict_get_default header [] row_data) normalized)
    headers [].

(** [save_to_csv]: the header row and the data rows handed to the CSV
    writer, [None] when there is no data and nothing is written. *)
Definition save_to_csv (data : list dict) (ml : MaxLinks)
  : option (list string * list dict) :=
  if negb (truthy_list data) then None
  else
    let headers := generate_csv_headers ml in
    let normalized_data :=
      List.map (fun row => normalize_row_data row headers) data in
    Some (headers, normalized_data).

(** ** The field naming of the data model, as the specification words it *)

Definition logical_columns : list Column := [ASIC; Business; Other].

Definition column_name (col : Column) : string :=
  match col with
  | ASIC => "ASIC Gazette"
  | Business => "Business Gazette"
  | Other => "Other / Notes"
  end.

(** Occurrence 0 is never suffixed, occurrences from 1 on carry their
    index. *)
Definition title_field (col : Column) (i : nat) : string :=
  match i, col with
  | 0, Other => column_name col
  | 0, _ => (column_name col ++ "_title")%string
  | _, _ => (column_name col ++ "_" ++ string_of_nat i)%string
  end.

Definition url_suffix (col : Column) : string :=
  match col with
  | Other => "_URL"
  | _ => "_Url"
  end.

Definition url_field (col : Column) (i : nat) : string :=
  match i with
  | 0 => (column_name col ++ url_suffix col)%string
  | _ => (column_name col ++ url_suffix col ++ "_" ++ string_of_nat i)%string
  end.

Definition field_pair (col : Column) (i : nat) : list string :=
  [title_field col i; url_field col i].

(** The fields of one logical column widened to [n] occurrences: the
    index-0 pair, then the indexed pairs for [i] from 1 to [n - 1]. *)
Definition column_block (col : Column) (n : nat) : list string :=
  field_pair col 0 ++ flat_map (field_pair col) (seq 1 (n - 1)).

(** [final_headers] of section 4.6, following its words. *)
Definition final_headers_spec (ml : MaxLinks) : list string :=
  ["Year"; "Date"]
  ++ flat_map (fun col => column_block col (ml_get col ml)) logical_columns.

(** Pointwise maximum of two Schema States. *)
Definition ml_max (a b : MaxLinks) : MaxLinks :=
  {| ml_asic := Nat.max (ml_asic a) (ml_asic b);
     ml_business := Nat.max (ml_business a) (ml_business b);
     ml_other := Nat.max (ml_other a) (ml_other b) |}.

(** [a] is below [b] on every logical column. *)
Definition ml_le (a b : MaxLinks) : Prop :=
  forall col, ml_get col a <= ml_get col b.

Definition ml_zero : MaxLinks :=
  {| ml_asic := 0; ml_business := 0; ml_other := 0 |}.

(** What a row asks of the Schema State: the number of titles of each
    Gazette cell and the number of Other / Notes slots; nothing for a row
    that yields no record. *)
Definition row_counts (py : Runtime) (row : Row) : MaxLinks :=
  match row_cells row with
  | None => ml_zero
  | Some cells =>
      if (List.length cells <? 4)%nat then ml_zero
      else
        match cell_text (nth 0 cells no_cell) with
        | None => ml_zero
        | Some _ =>
            let notes := notes_texts_urls py cells in
            {| ml_asic :=
                 List.length (fst (gazette_titles_urls py (nth 1 cells no_cell)));
               ml_business :=
                 List.length (fst (gazette_titles_urls py (nth 2 cells no_cell)));
               ml_other :=
                 Nat.max (List.length (fst notes)) (List.length (snd notes)) |}
        end
  end.

(** The record of a row; it does not depend on the Schema State. *)
Definition row_record (py : Runtime) (row : Row) (year : str) : option dict :=
  fst (extract_row_data py row year max_links_init).

Definition has_key (k : string) (d : dict) : bool :=
  match dict_get k d with
  | Some _ => true
  | None => false
  end.

(** The number of occurrences of a logical column a record carries: the
    indices at which it has the title field or the URL field. *)
Definition occurrences (col : Column) (record : dict) : nat :=
  List.length
    (filter
       (fun i => has_key (title_field col i) record
                 || has_key (url_field col i) record)
       (seq 0 (List.length record))).

(** [p] occurs in [s] as a contiguous block. *)
Definition infix (p s : str) : Prop := exists a b, s = a ++ p ++ b.

(** A word: a non-empty string without whitespace. *)
Definition word (w : str) : Prop :=
  w <> [] /\ Forall (fun c => isspace c = false) w.

(** No two whitespace characters follow each other. *)
Fixpoint no_double_space (s : str) : bool :=
  match s with
  | a :: (b :: _) as t => negb (isspace a && isspace b) && no_double_space t
  | _ => true
  end.

(** The two replacements of [_clean_text]. *)
Definition unescape_nbsp (t : str) : str :=
  replace (lit "&nbsp;") (lit " ") (replace [160%N] (lit " ") t).

(** An ASCII decimal digit. *)
Definition is_digit (c : ascii) : bool :=
  (48 <=? nat_of_ascii c)%nat && (nat_of_ascii c <=? 57)%nat.

Definition starts_with_digit (s : string) : bool :=
  match s with
  | String c _ => is_digit c
  | EmptyString => false
  end.

(** The value a header takes in the normalised record. *)
Definition header_value (row_data : dict) (header : string) : string * str :=
  (header,
   match dict_get header row_data with
   | Some v => v
   | None => []
   end).

(** The records a row adds to its table: its record when it has one. *)
Definition row_records (py : Runtime) (year : str) (row : Row) : list dict :=
  match row_record py row year with
  | Some (field :: fields) => [field :: fields]
  | _ => []
  end.

(** The first character of a field name. *)
Definition initial (k : string) : option ascii :=
  match k with
  | String c _ => Some c
  | EmptyString => None
  end.

(** The [th] lookup of the row does not raise. *)
Definition th_readable (row : Row) : bool :=
  match row_has_th row with
  | Some _ => true
  | None => false
  end.

(** The [th] lookup of the row finds nothing: a data row. *)
Definition without_th (row : Row) : bool :=
  match row_has_th row with
  | Some has_th => negb has_th
  | None => false
  end.

(** The rows a table hands to the row parser, [None] when a table-level
    lookup raises. *)
Definition parsed_rows (table : Table) : Exc (list Row) :=
  match table_rows table with
  | Tbody rows => Some rows
  | NoTbody rows => rows_without_th rows
  | BrokenTable => None
  end.

(** The records of a table; they do not depend on the Schema State. *)
Definition table_records (py : Runtime) (table : Table) (year : str)
  : list dict :=
  fst (extract_table_data py table year max_links_init).

(** The records of the [i]-th table of the fallback, labelled by its
    index. *)
Definition indexed_table_records (py : Runtime) (it : nat * Table) : list dict :=
  table_records py (snd it) (lit ("Table_" ++ string_of_nat (fst it))%string).

(** The table is currently visible. *)
Definition is_visible (table : Table) : bool :=
  match table_displayed table with
  | Some displayed => displayed
  | None => false
  end.

(** The fallback of section 4.7 following its words: only the tables
    that are currently visible are parsed. *)
Definition visible_tables_fallback (py : Runtime) (page : Page)
    (self : Scraper) : Scraper :=
  process_tables py (filter is_visible (page_tables page)) self.

(** [zip(titles, urls)] of lines 175 and 199 on what the link extractor
    returns for the cell. *)
Definition link_pairs (py : Runtime) (cell : Cell) : list (str * str) :=
  let '(titles, urls) := extract_multiple_links_data py cell in
  combine titles urls.

(** The [href] of a link, a missing one read as the empty string. *)
Definition href_or_empty (link : Link) : str :=
  match link_href link with
  | Some (Some href) => href
  | _ => []
  end.

(** The links of section 4.2 following its words: one pair per hyperlink,
    a missing [href] treated as the empty string. *)
Definition link_pairs_spec (py : Runtime) (cell : Cell)
  : Exc (list (str * str)) :=
  links <- cell_links cell ;;
  for_each
    (fun pairs link =>
       url <- resolve_url py (href_or_empty link) ;;
       Some (pairs ++ [(clean_text (link_text link), url)]))
    links [].

(** What one link adds to the titles. *)
Definition title_entries (link : Link) : list str :=
  if truthy (clean_text (link_text link)) then [clean_text (link_text link)]
  else [].

(** The link has an [href] that is not empty. *)
Definition has_href (link : Link) : bool := truthy (href_or_empty link).

(** The URL of a link: its [href], stripped and resolved; [None] when
    [urljoin] raises on it. *)
Definition resolved_href (py : Runtime) (link : Link) : Exc str :=
  resolve_url py (strip (href_or_empty link)).

(** The URLs of the links of a cell: the resolved [href] of every link
    that has one, in document order; [None] when [urljoin] raises on one
    of them. *)
Fixpoint resolved_urls (py : Runtime) (links : list Link) : Exc (list str) :=
  match links with
  | [] => Some []
  | link :: links' =>
      if has_href link then
        url <- resolved_href py link ;;
        urls <- resolved_urls py links' ;;
        Some (url :: urls)
      else resolved_urls py links'
  end.

(** Both reads of the link succeed. *)
Definition readable (link : Link) : Prop :=
  link_text link <> None /\ link_href link <> None.

(** A readable link with a non-empty cleaned text and a non-empty
    [href]. *)
Definition complete (link : Link) : Prop :=
  readable link
  /\ truthy (clean_text (link_text link)) = true
  /\ truthy (href_or_empty link) = true.

(** ** Sample inputs *)

(** A runtime for the examples: [urljoin] appends the path to the base,
    [lower] touches nothing and no non-ASCII digit is known. *)
Definition py0 : Runtime :=
  {| base_url := lit "https://asic.gov.au";
     urljoin := fun base url => Some (base ++ url);
     lower := fun s => s;
     unicode_digit := fun _ => None |}.

Definition a_link (text : string) (href : option string) : Link :=
  {| link_text := Some (lit text);
     link_href := Some (option_map lit href) |}.

Definition a_cell (text : string) (links : list Link) : Cell :=
  {| cell_text := Some (lit text); cell_links := Some links |}.

Definition a_row (cells : list Cell) : Row :=
  {| row_has_th := Some false; row_cells := Some cells |}.

Definition a_table (displayed : bool) (rows : list Row) : Table :=
  {| table_displayed := Some displayed; table_rows := Tbody rows |}.

(** A row with one ASIC Gazette link and a row with three. *)
Definition row_one_link : Row :=
  a_row [a_cell "3 January 2020" [];
         a_cell "A01/20" [a_link "A01/20" (Some "/media/a01-20.pdf")];
         a_cell "" [];
         a_cell "" []].

Definition row_three_links : Row :=
  a_row [a_cell "10 January 2020" [];
         a_cell "A02/20 A03/20 A04/20"
           [a_link "A02/20" (Some "/media/a02-20.pdf");
            a_link "A03/20" (Some "/media/a03-20.pdf");
            a_link "A04/20" (Some "/media/a04-20.pdf")];
         a_cell "B01/20" [a_link "B01/20" (Some "https://asic.gov.au/b01.pdf")];
         a_cell "" []].

(** A row whose ASIC Gazette cell holds a link without [href] followed by
    a complete link. *)
Definition row_link_without_href : Row :=
  a_row [a_cell "17 January 2020" [];
         a_cell "A05/20 A06/20"
           [a_link "A05/20" None;
            a_link "A06/20" (Some "https://asic.gov.au/a06.pdf")];
         a_cell "" [];
         a_cell "" []].

(** A row whose ASIC Gazette cell holds a single link, without [href]. *)
Definition row_only_link_without_href : Row :=
  a_row [a_cell "24 January 2020" [];
         a_cell "A07/20" [a_link "A07/20" None];
         a_cell "" [];
         a_cell "" []].

(** A table without [tbody], a header row and a detached row, on which
    every lookup raises. *)
Definition table_without_tbody (rows : list Row) : Table :=
  {| table_displayed := Some true; table_rows := NoTbody rows |}.

Definition header_row : Row :=
  {| row_has_th := Some true; row_cells := Some [] |}.

Definition detached_row : Row :=
  {| row_has_th := None; row_cells := None |}.

(** A row with three cells only. *)
Definition row_three_cells : Row :=
  a_row [a_cell "ASIC Gazette" []; a_cell "Business Gazette" [];
         a_cell "Notes" []].

(** The record of [row_one_link]. *)
Definition record_one_link : dict :=
  match row_record py0 row_one_link (lit "2020") with
  | Some record => record
  | None => []
  end.

(** The Schema State after [row_one_link] and [row_three_links]. *)
Definition max_links_one_three : MaxLinks :=
  snd (extract_rows py0 [row_one_link; row_three_links] (lit "2020")
         max_links_init).

(** An anchor whose whole text is ["2023"], found by the text scan only,
    with its table under the same parent. *)
Definition anchor_2023 : Element :=
  {| elem_text := lit "2023";
     elem_aria_expanded := Some (lit "false");
     elem_parent_table := Some (a_table true [row_one_link]);
     elem_next_siblings := [];
     elem_content_area := fun _ => None;
     elem_tables := [] |}.

Definition page_2023 : Page :=
  {| page_css := fun _ => [];
     page_text_elements := [anchor_2023];
     page_source := lit "<html><body><h2>2023</h2><table></table></body></html>";
     page_accordion_containers := [];
     page_tables := [a_table true [row_one_link]] |}.

(** The record the run over [page_2023] returns. *)
Definition record_2023 : dict :=
  match fst (scrape_data py0 page_2023 scraper_init) with
  | Some (record :: _) => record
  | _ => []
  end.

(** A table that is not displayed: its texts read empty, its links keep
    their [href]. *)
Definition hidden_table : Table :=
  a_table false
    [a_row [a_cell "" [];
            a_cell "" [a_link "" (Some "/media/a99-19.pdf")];
            a_cell "" [];
            a_cell "" []]].

(** No year anchor, a hidden table and a visible one. *)
Definition page_hidden_table : Page :=
  {| page_css := fun _ => [];
     page_text_elements := [];
     page_source := lit "<html><body><table></table><table></table></body></html>";
     page_accordion_containers := [];
     page_tables := [hidden_table; a_table true [row_one_link]] |}.

(** No year anchor and two visible tables. *)
Definition page_two_tables : Page :=
  {| page_css := fun _ => [];
     page_text_elements := [];
     page_source := lit "<html><body><table></table><table></table></body></html>";
     page_accordion_containers := [];
     page_tables :=
       [a_table true [row_one_link];
        a_table true [row_three_cells; row_three_links]] |}.

(** A cell with three links, the second without [href]. *)
Definition cell_middle_link_without_href : Cell :=
  a_cell "A10/20 A11/20 A12/20"
    [a_link "A10/20" (Some "https://asic.gov.au/a10.pdf");
     a_link "A11/20" None;
     a_link "A12/20" (Some "https://asic.gov.au/a12.pdf")].

(** A cell with two complete links. *)
Definition cell_two_links : Cell :=
  a_cell "A02/20 A03/20"
    [a_link "A02/20" (Some "/media/a02-20.pdf");
     a_link "  A03/20 " (Some " https://asic.gov.au/a03-20.pdf ")].

(** A 4-cell row whose Notes cell has a text and two links, and one
    whose Notes cell has two links and no visible text. *)
Definition row_notes_two_links : Row :=
  a_row [a_cell "31 January 2020" [];
         a_cell "" [];
         a_cell "" [];
         a_cell "See notice and erratum"
           [a_link "notice" (Some "/media/notice.pdf");
            a_link "erratum" (Some "/media/erratum.pdf")]].



(** The record of [row_notes_two_links]. *)
Definition record_notes_two_links : dict :=
  match row_record py0 row_notes_two_links (lit "2020") with
  | Some record => record
  | None => []
  end.

(** One step of the loop that stores a Gazette column, on the field
    names of the data model. *)
Definition store_pair (col : Column) (result : dict)
    (entry : nat * (str * str)) : dict :=
  let '(i, (title, url)) := entry in
  dict_set (url_field col i) url (dict_set (title_field col i) title result).

(** The cell of a row a Gazette column is read from. *)
Definition gazette_cell (col : Column) : nat :=
  match col with
  | ASIC => 1
  | Business => 2
  | Other => 3
  end.

(** The record of [row_three_links]. *)
Definition record_three_links : dict :=
  match row_record py0 row_three_links (lit "2020") with
  | Some record => record
  | None => []
  end.





(** Every field of the record is a header of the Schema State. *)
Definition covers (ml : MaxLinks) (record : dict) : Prop :=
  forall k, In k (dict_keys record) -> In k (generate_csv_headers ml).

(** The record of [row_three_links] in the run over [page_two_tables]. *)
Definition record_table_1 : dict :=
  match row_record py0 row_three_links (lit "Table_1") with
  | Some record => record
  | None => []
  end.

(** A cell with a link of which only the text can be read, after a
    complete link. *)
Definition cell_detached_link : Cell :=
  {| cell_text := Some (lit "A08/20 A09/20");
     cell_links :=
       Some [a_link "A08/20" (Some "/media/a08-20.pdf");
             {| link_text := Some (lit "A09/20"); link_href := None |}] |}.

(** The table association strategies of section 4.5, following its
    words.  The first table met in a chain of siblings. *)
Definition first_sibling_is (siblings : list Sibling) (table : Table) : Prop :=
  exists before after,
    siblings = before ++ SiblingTable table :: after
    /\ Forall (fun sibling => sibling = SiblingOther) before.

(** Strategy 2: the first table among the next five siblings. *)
Definition sibling_table (elem : Element) (table : Table) : Prop :=
  first_sibling_is (firstn 5 (elem_next_siblings elem)) table.

Definition no_sibling_table (elem : Element) : Prop :=
  Forall (fun sibling => sibling = SiblingOther)
    (firstn 5 (elem_next_siblings elem)).

(** A content selector gives no table: it matches nothing, or its first
    match is not displayed or holds no table. *)
Definition no_area_table (elem : Element) (selector : string) : Prop :=
  match elem_content_area elem selector with
  | Some area => area_displayed area = false \/ area_table area = None
  | None => True
  end.

Definition first_area_table_is (elem : Element) (selectors : list string)
    (table : Table) : Prop :=
  exists before selector after area,
    selectors = before ++ selector :: after
    /\ Forall (no_area_table elem) before
    /\ elem_content_area elem selector = Some area
    /\ area_displayed area = true
    /\ area_table area = Some table.

(** Strategy 3: the table of the first content selector, in the order of
    the list, whose first match is displayed and holds a table. *)
Definition content_table (elem : Element) (table : Table) : Prop :=
  first_area_table_is elem content_selectors table.

Definition no_content_table (elem : Element) : Prop :=
  Forall (no_area_table elem) content_selectors.

(** The first displayed table of a list: the tables before it are not
    displayed. *)
Definition first_displayed_is (tables : list Table) (table : Table) : Prop :=
  exists before after,
    tables = before ++ table :: after
    /\ Forall (fun table' => table_displayed table' = Some false) before
    /\ table_displayed table = Some true.

(** No table of the list is found displayed: none is displayed up to
    the end of the list, or up to a table on which [is_displayed]
    raises. *)
Definition none_displayed (tables : list Table) : Prop :=
  exists before after,
    tables = before ++ after
    /\ Forall (fun table' => table_displayed table' = Some false) before
    /\ match after with
       | [] => True
       | table :: _ => table_displayed table = None
       end.

(** Strategy 4: the first displayed table of the page. *)
Definition page_table (elem : Element) (table : Table) : Prop :=
  first_displayed_is (elem_tables elem) table.

Definition no_page_table (elem : Element) : Prop :=
  none_displayed (elem_tables elem).

(** The records an anchor adds to the run: those of its table under its
    year label, none when no table is found. *)
Definition anchor_records (py : Runtime) (elem : Element) : list dict :=
  match find_table elem with
  | Some table =>
      table_records py table (year_label (clean_text (Some (elem_text elem))))
  | None => []
  end.

(** A runtime whose [urljoin] raises on a reference that starts with
    ["//["], as [urllib.parse.urljoin] does, and a row whose ASIC Gazette
    cell holds a complete link followed by a link with that [href]. *)
Definition py_strict : Runtime :=
  {| base_url := lit "https://asic.gov.au";
     urljoin :=
       fun base url =>
         if startswith (lit "//[") url then None else Some (base ++ url);
     lower := fun s => s;
     unicode_digit := fun _ => None |}.

Definition cell_malformed_href : Cell :=
  a_cell "A13/20 A14/20"
    [a_link "A13/20" (Some "/media/a13-20.pdf");
     a_link "A14/20" (Some "//[")].

Definition row_malformed_href : Row :=
  a_row [a_cell "28 February 2020" [];
         cell_malformed_href;
         a_cell "" [];
         a_cell "" []].

Definition record_malformed_href : dict :=
  match row_record py_strict row_malformed_href (lit "2020") with
  | Some record => record
  | None => []
  end.

(** A runtime whose Unicode database knows SUPERSCRIPT TWO as a digit
    that is not a decimal digit, and a page with that character four
    times as the whole text of an element. *)
Definition py_superscript : Runtime :=
  {| base_url := lit "https://asic.gov.au";
     urljoin := fun base url => Some (base ++ url);
     lower := fun s => s;
     unicode_digit := fun c => if (c =? 178)%N then Some (false, 2%N) else None |}.

Definition anchor_superscript : Element :=
  {| elem_text := [178; 178; 178; 178]%N;
     elem_aria_expanded := None;
     elem_parent_table := None;
     elem_next_siblings := [];
     elem_content_area := fun _ => None;
     elem_tables := [] |}.

Definition page_superscript : Page :=
  {| page_css := fun _ => [];
     page_text_elements := [anchor_2023; anchor_superscript];
     page_source := lit "<html><body><h2>2023</h2></body></html>";
     page_accordion_containers := [];
     page_tables := [a_table true [row_one_link]] |}.

(** An anchor found by the first selector, labelled by its first token,
    and a page where the third selector also matches. *)
Definition anchor_2019 : Element :=
  {| elem_text := lit "  Gazettes 2019 ";
     elem_aria_expanded := Some (lit "true");
     elem_parent_table := None;
     elem_next_siblings :=
       [SiblingOther; SiblingTable (a_table true [row_three_links])];
     elem_content_area := fun _ => None;
     elem_tables := [a_table true [row_one_link]] |}.


(** * Properties *)

(** ** Lists and loops *)

Lemma fold_left_extend (A B : Type) (f : B -> list A) (l : list B) (acc : list A) :
  fold_left (fun acc b => acc ++ f b) l acc = acc ++ flat_map f l.
Proof.
  revert acc; induction l as [|b l IH]; intros acc; simpl.
  - now rewrite app_nil_r.
  - now rewrite IH, app_assoc.
Qed.

(** ** Header generation *)

Lemma flat_map_seq_ext (A : Type) (f g : nat -> list A) (n a : nat) :
  (forall i, a <= i -> f i = g i) ->
  flat_map f (seq a n) = flat_map g (seq a n).
Proof.
  revert a; induction n as [|n IH]; intros a Hfg; simpl; [reflexivity|].
  rewrite (Hfg a) by lia. f_equal. apply IH. intros i Hi. apply Hfg. lia.
Qed.

Lemma field_pair_indexed (col : Column) (i : nat) :
  1 <= i ->
  field_pair col i =
  [(column_name col ++ "_" ++ string_of_nat i)%string;
   (column_name col ++ url_suffix col ++ "_" ++ string_of_nat i)%string].
Proof.
  intros Hi. destruct i as [|i]; [lia|]. reflexivity.
Qed.

Lemma generate_csv_headers_flat (ml : MaxLinks) :
  generate_csv_headers ml = final_headers_spec ml.
Proof.
  unfold generate_csv_headers, final_headers_spec, column_block, range,
    logical_columns.
  rewrite !fold_left_extend.
  cbn [flat_map ml_get]. rewrite app_nil_r.
  rewrite (flat_map_seq_ext _ (field_pair ASIC) (ml_asic ml - 1) (a := 1))
    by (intros i Hi; now rewrite field_pair_indexed).
  rewrite (flat_map_seq_ext _ (field_pair Business) (ml_business ml - 1) (a := 1))
    by (intros i Hi; now rewrite field_pair_indexed).
  rewrite (flat_map_seq_ext _ (field_pair Other) (ml_other ml - 1) (a := 1))
    by (intros i Hi; now rewrite field_pair_indexed).
  repeat rewrite <- app_assoc. reflexivity.
Qed.

(** ** Python strings: matching and replacement *)

Lemma startswith_prefix (p s : str) :
  startswith p s = true <-> exists t, s = p ++ t.
Proof.
  revert s; induction p as [|a p IH]; intros s; simpl.
  - split; [intros _; now exists s | reflexivity].
  - destruct s as [|b s].
    + split; [discriminate | intros [t Ht]; discriminate].
    + rewrite andb_true_iff, N.eqb_eq, IH. split.
      * intros [-> [t ->]]. now exists t.
      * intros [t Ht]. injection Ht as -> ->. split; [reflexivity | now exists t].
Qed.

Lemma contains_infix (p s : str) : contains p s = true <-> infix p s.
Proof.
  split.
  - induction s as [|c s IH]; simpl; rewrite orb_true_iff.
    + intros [H|H]; [|discriminate].
      apply startswith_prefix in H as [t Ht]. now exists [], t.
    + intros [H|H].
      * apply startswith_prefix in H as [t Ht]. now exists [], t.
      * destruct (IH H) as (a & b & ->). now exists (c :: a), b.
  - intros (a & b & ->). induction a as [|c a IH]; simpl.
    + assert (H : startswith p (p ++ b) = true)
        by (apply startswith_prefix; now exists b).
      destruct (p ++ b); simpl; now rewrite H.
    + rewrite IH. apply orb_true_r.
Qed.

Lemma infix_trans (p w s : str) : infix p w -> infix w s -> infix p s.
Proof.
  intros (a & b & ->) (a' & b' & ->).
  exists (a' ++ a), (b ++ b'). now rewrite <- !app_assoc.
Qed.

Lemma infix_in (p s : str) (x : char) : infix p s -> In x p -> In x s.
Proof.
  intros (a & b & ->) Hx. apply in_or_app; right. apply in_or_app; now left.
Qed.

(** A block that avoids the separator lies on one side of it. *)
Lemma infix_app_sep (p w t : str) (x : char) :
  p <> [] -> ~ In x p -> infix p (w ++ x :: t) -> infix p w \/ infix p t.
Proof.
  intros Hp Hx (a & b & E).
  symmetry in E. apply app_eq_app in E as [l [[-> E]|[-> E]]].
  - destruct l as [|y l]; simpl in E.
    + destruct p as [|y p]; [congruence|]. injection E as <- _.
      exfalso. apply Hx. now left.
    + injection E as <- ->. right. now exists l, b.
  - symmetry in E. apply app_eq_app in E as [m [[-> E]|[-> E]]].
    + left. now exists a, m.
    + destruct m as [|y m]; simpl in E.
      * rewrite app_nil_r. left. exists a, []. now rewrite app_nil_r.
      * injection E as <- _. exfalso. apply Hx. apply in_or_app; right. now left.
Qed.

Lemma replace_from_skip (old new a t : str) :
  replace_from old new (List.length a) (a ++ t) = replace_from old new 0 t.
Proof.
  induction a as [|c a IH]; simpl; [|exact IH].
  destruct t; reflexivity.
Qed.

(** The two equations of [replace]. *)
Lemma replace_match (old new t : str) :
  old <> [] -> replace old new (old ++ t) = new ++ replace old new t.
Proof.
  intros Hold. destruct old as [|c old]; [congruence|].
  unfold replace. cbn [app replace_from].
  assert (H : startswith (c :: old) (c :: old ++ t) = true)
    by (apply startswith_prefix; now exists t).
  rewrite H. f_equal.
  replace (List.length (c :: old) - 1) with (List.length old) by (simpl; lia).
  apply replace_from_skip.
Qed.

Lemma replace_nomatch (old new s : str) (c : char) :
  startswith old (c :: s) = false ->
  replace old new (c :: s) = c :: replace old new s.
Proof.
  intros H. unfold replace. cbn [replace_from]. now rewrite H.
Qed.

Lemma replace_nil (old new : str) : replace old new [] = [].
Proof. reflexivity. Qed.

(** Replacing a pattern that does not occur changes nothing. *)
Lemma replace_absent (old new s : str) :
  contains old s = false -> replace old new s = s.
Proof.
  induction s as [|c s IH]; [reflexivity|].
  cbn [contains]. rewrite orb_false_iff. intros [H1 H2].
  rewrite replace_nomatch by exact H1. now rewrite IH.
Qed.

(** What the output of a replacement by one character starts with, when
    that character is avoided, the input starts with too. *)
Lemma replace_prefix_inv (old q s : str) (x : char) :
  old <> [] -> ~ In x q ->
  startswith q (replace old [x] s) = true -> startswith q s = true.
Proof.
  intros Hold. revert s; induction q as [|a q IH]; intros s Hx; [reflexivity|].
  destruct s as [|c s]; [now rewrite replace_nil|].
  destruct (startswith old (c :: s)) eqn:E.
  - apply startswith_prefix in E as [t Et]. rewrite Et, replace_match by exact Hold.
    simpl. rewrite andb_true_iff, N.eqb_eq. intros [-> _].
    exfalso. apply Hx. now left.
  - rewrite replace_nomatch by exact E. simpl.
    rewrite !andb_true_iff. intros [Hac Hq]. split; [exact Hac|].
    apply IH; [|exact Hq]. intros Hin. apply Hx. now right.
Qed.

(** After the replacement the pattern occurs nowhere. *)
Lemma replace_removes (old s : str) (x : char) :
  old <> [] -> ~ In x old -> contains old (replace old [x] s) = false.
Proof.
  intros Hold Hx.
  remember (List.length s) as n eqn:Hn. revert s Hn.
  induction n as [n IH] using lt_wf_ind. intros s Hn.
  destruct s as [|c s].
  - rewrite replace_nil. destruct old; [congruence | reflexivity].
  - destruct (startswith old (c :: s)) eqn:E.
    + apply startswith_prefix in E as [t Et].
      rewrite Et, replace_match by exact Hold.
      cbn [app contains]. rewrite orb_false_iff. split.
      * destruct old as [|a old]; [congruence|]. simpl.
        destruct (N.eqb_spec a x) as [->|_]; [|reflexivity].
        exfalso. apply Hx. now left.
      * apply (IH (List.length t)); [|reflexivity].
        subst n. rewrite Et, length_app.
        destruct old; [congruence | simpl; lia].
    + rewrite replace_nomatch by exact E.
      cbn [contains]. rewrite orb_false_iff. split.
      * destruct old as [|a old]; [congruence|].
        destruct (startswith (a :: old) (c :: replace (a :: old) [x] s)) eqn:F;
          [|reflexivity].
        simpl in F, E. apply andb_true_iff in F as [F1 F2].
        rewrite F1 in E. simpl in E.
        apply replace_prefix_inv in F2; [congruence | congruence |].
        intros Hin. apply Hx. now right.
      * apply (IH (List.length s)); [subst n; simpl; lia | reflexivity].
Qed.

(** ** Python strings: words, [split], [join] and [strip] *)

Lemma word_cons (c : char) (w : str) :
  isspace c = false -> Forall (fun c => isspace c = false) w -> word (c :: w).
Proof. intros Hc Hw. split; [discriminate | now constructor]. Qed.

Lemma word_head (w : str) :
  word w -> exists c w', w = c :: w' /\ isspace c = false
                         /\ Forall (fun c => isspace c = false) w'.
Proof.
  intros [Hne Hw]. destruct w as [|c w']; [congruence|].
  inversion Hw; subst. now exists c, w'.
Qed.

Lemma split_words (s : str) : Forall word (split s).
Proof.
  induction s as [|c s IH]; simpl; [constructor|].
  destruct (isspace c) eqn:Hc; [exact IH|].
  destruct s as [|d s'].
  - constructor; [now apply word_cons | constructor].
  - destruct (isspace d) eqn:Hd.
    + constructor; [now apply word_cons | exact IH].
    + destruct (split (d :: s')) as [|w ws]; simpl.
      * constructor; [now apply word_cons | constructor].
      * inversion IH as [|? ? [_ Hw] Hws]; subst.
        constructor; [now apply word_cons | exact Hws].
Qed.

Lemma split_cons2 (c d : char) (s : str) :
  isspace c = false -> isspace d = false ->
  split (c :: d :: s) = cons_word c (split (d :: s)).
Proof.
  intros Hc Hd.
  change (split (c :: d :: s))
    with (if isspace c then split (d :: s)
          else if isspace d then [c] :: split (d :: s)
               else cons_word c (split (d :: s))).
  now rewrite Hc, Hd.
Qed.

Lemma split_word_app (w t : str) :
  word w -> split (w ++ 32%N :: t) = w :: split t.
Proof.
  intros Hw. apply word_head in Hw as (c & w' & -> & Hc & Hw').
  revert c Hc; induction w' as [|d w' IH]; intros c Hc.
  - simpl. now rewrite Hc.
  - inversion Hw' as [|? ? Hd Hw'']; subst.
    change ((c :: d :: w') ++ 32%N :: t) with (c :: d :: (w' ++ 32%N :: t)).
    rewrite split_cons2 by assumption.
    change (d :: w' ++ 32%N :: t) with ((d :: w') ++ 32%N :: t).
    now rewrite (IH Hw'' d Hd).
Qed.

Lemma split_word (w : str) : word w -> split w = [w].
Proof.
  intros Hw. apply word_head in Hw as (c & w' & -> & Hc & Hw').
  revert c Hc; induction w' as [|d w' IH]; intros c Hc.
  - simpl. now rewrite Hc.
  - inversion Hw' as [|? ? Hd Hw'']; subst.
    rewrite split_cons2 by assumption. now rewrite (IH Hw'' d Hd).
Qed.

Lemma join_cons2 (sep w w' : str) (ws : list str) :
  join sep (w :: w' :: ws) = w ++ sep ++ join sep (w' :: ws).
Proof. reflexivity. Qed.

(** Splitting a string of single-spaced words gives the words back. *)
Lemma split_join (ws : list str) :
  Forall word ws -> split (join [32%N] ws) = ws.
Proof.
  induction ws as [|w ws IH]; intros H; [reflexivity|].
  inversion H as [|? ? Hw Hws]; subst.
  destruct ws as [|w' ws].
  - now apply split_word.
  - rewrite join_cons2. cbn [app]. rewrite split_word_app by exact Hw.
    now rewrite IH.
Qed.

Lemma join_words_head (ws : list str) :
  Forall word ws -> ws <> [] ->
  exists c t, join [32%N] ws = c :: t /\ isspace c = false.
Proof.
  intros H Hne. destruct ws as [|w ws]; [congruence|].
  inversion H as [|? ? Hw _]; subst.
  apply word_head in Hw as (c & w' & -> & Hc & _).
  destruct ws; simpl; eauto.
Qed.

Lemma lstrip_join (ws : list str) :
  Forall word ws -> lstrip (join [32%N] ws) = join [32%N] ws.
Proof.
  intros H. destruct ws as [|w ws]; [reflexivity|].
  destruct (join_words_head H) as (c & t & -> & Hc); [discriminate|].
  simpl. now rewrite Hc.
Qed.

Lemma rstrip_cons (c : char) (t : str) :
  rstrip t = t -> t <> [] -> rstrip (c :: t) = c :: t.
Proof.
  intros Ht Hne. simpl. rewrite Ht. destruct t; [congruence | reflexivity].
Qed.

Lemma rstrip_app (a t : str) :
  rstrip t = t -> t <> [] -> rstrip (a ++ t) = a ++ t.
Proof.
  intros Ht Hne. induction a as [|c a IH]; [exact Ht|].
  simpl app. apply rstrip_cons; [exact IH|].
  destruct a; [exact Hne | discriminate].
Qed.

Lemma rstrip_word (w : str) : word w -> rstrip w = w.
Proof.
  intros Hw. apply word_head in Hw as (c & w' & -> & Hc & Hw').
  revert c Hc; induction w' as [|d w' IH]; intros c Hc.
  - simpl. now rewrite Hc.
  - inversion Hw' as [|? ? Hd Hw'']; subst.
    apply rstrip_cons; [now apply IH | discriminate].
Qed.

Lemma rstrip_join (ws : list str) :
  Forall word ws -> rstrip (join [32%N] ws) = join [32%N] ws.
Proof.
  induction ws as [|w ws IH]; intros H; [reflexivity|].
  inversion H as [|? ? Hw Hws]; subst.
  destruct ws as [|w' ws].
  - now apply rstrip_word.
  - rewrite join_cons2. cbn [app].
    destruct (join_words_head Hws) as (c & t & E & _); [discriminate|].
    apply rstrip_app; [|discriminate].
    apply rstrip_cons; [now apply IH | rewrite E; discriminate].
Qed.

Lemma strip_join (ws : list str) :
  Forall word ws -> strip (join [32%N] ws) = join [32%N] ws.
Proof.
  intros H. unfold strip. rewrite lstrip_join by exact H. now apply rstrip_join.
Qed.

Lemma in_join (sep : str) (ws : list str) (x : char) :
  In x (join sep ws) -> In x sep \/ exists w, In w ws /\ In x w.
Proof.
  induction ws as [|w ws IH]; [intros []|].
  destruct ws as [|w' ws].
  - intros H. right. exists w. split; [now left | exact H].
  - rewrite join_cons2. intros H.
    apply in_app_or in H as [H|H]; [right; exists w; split; [now left | exact H]|].
    apply in_app_or in H as [H|H]; [now left|].
    destruct (IH H) as [Hs|(v & Hv & Hx)]; [now left|].
    right. exists v. split; [now right | exact Hx].
Qed.

(** In a string of single-spaced words every whitespace character is an
    ordinary space. *)
Lemma join_words_space (ws : list str) (x : char) :
  Forall word ws -> In x (join [32%N] ws) -> isspace x = true -> x = 32%N.
Proof.
  intros H Hin Hx. apply in_join in Hin as [[<-|[]]|(w & Hw & Hxw)]; [reflexivity|].
  rewrite Forall_forall in H. destruct (H w Hw) as [_ Hall].
  rewrite Forall_forall in Hall. rewrite (Hall x Hxw) in Hx. discriminate.
Qed.

Lemma no_double_space_cons2 (a b : char) (t : str) :
  no_double_space (a :: b :: t)
  = negb (isspace a && isspace b) && no_double_space (b :: t).
Proof. reflexivity. Qed.

Lemma no_double_space_word_app (w t : str) (d : char) :
  word w -> isspace d = false -> no_double_space (d :: t) = true ->
  no_double_space (w ++ 32%N :: d :: t) = true.
Proof.
  intros Hw Hd Ht. apply word_head in Hw as (c & w' & -> & Hc & Hw').
  revert c Hc; induction w' as [|e w' IH]; intros c Hc.
  - change ([c] ++ 32%N :: d :: t) with (c :: 32%N :: d :: t).
    rewrite !no_double_space_cons2, Hc, Hd, Ht, andb_false_r. reflexivity.
  - inversion Hw' as [|? ? He Hw'']; subst.
    change ((c :: e :: w') ++ 32%N :: d :: t)
      with (c :: e :: (w' ++ 32%N :: d :: t)).
    rewrite no_double_space_cons2, Hc. simpl negb. simpl andb.
    change (e :: w' ++ 32%N :: d :: t) with ((e :: w') ++ 32%N :: d :: t).
    now apply IH.
Qed.

Lemma no_double_space_word (w : str) : word w -> no_double_space w = true.
Proof.
  intros Hw. apply word_head in Hw as (c & w' & -> & Hc & Hw').
  revert c Hc; induction w' as [|e w' IH]; intros c Hc; [reflexivity|].
  inversion Hw' as [|? ? He Hw'']; subst.
  rewrite no_double_space_cons2, Hc. simpl. now apply IH.
Qed.

Lemma no_double_space_join (ws : list str) :
  Forall word ws -> no_double_space (join [32%N] ws) = true.
Proof.
  induction ws as [|w ws IH]; intros H; [reflexivity|].
  inversion H as [|? ? Hw Hws]; subst.
  destruct ws as [|w' ws].
  - now apply no_double_space_word.
  - rewrite join_cons2. cbn [app].
    destruct (join_words_head Hws) as (c & t & E & Hc); [discriminate|].
    specialize (IH Hws). rewrite E in *.
    now apply no_double_space_word_app.
Qed.

Lemma split_first_prefix (s : str) (d : char) :
  isspace d = false ->
  exists w ws t, split (d :: s) = w :: ws /\ d :: s = w ++ t.
Proof.
  revert d; induction s as [|e s IH]; intros d Hd.
  - exists [d], [], []. simpl. now rewrite Hd.
  - destruct (isspace e) eqn:He.
    + exists [d], (split (e :: s)), (e :: s). split; [|reflexivity].
      change (split (d :: e :: s))
        with (if isspace d then split (e :: s)
              else if isspace e then [d] :: split (e :: s)
                   else cons_word d (split (e :: s))).
      now rewrite Hd, He.
    + destruct (IH e He) as (w & ws & t & E1 & E2).
      exists (d :: w), ws, t. rewrite split_cons2, E1 by assumption.
      split; [reflexivity | simpl; now rewrite <- E2].
Qed.

(** Every word of [split s] is a block of [s]. *)
Lemma split_infix (s w : str) : In w (split s) -> infix w s.
Proof.
  assert (Hcons : forall c p t, infix p t -> infix p (c :: t)).
  { intros c p t (a & b & ->). now exists (c :: a), b. }
  revert w; induction s as [|c s IH]; intros w; [intros []|].
  destruct (isspace c) eqn:Hc.
  - simpl. rewrite Hc. intros H. apply Hcons. now apply IH.
  - destruct s as [|d s].
    + simpl. rewrite Hc. intros [<-|[]]. now exists [], [].
    + destruct (isspace d) eqn:Hd.
      * change (split (c :: d :: s))
          with (if isspace c then split (d :: s)
                else if isspace d then [c] :: split (d :: s)
                     else cons_word c (split (d :: s))).
        rewrite Hc, Hd. intros [<-|H]; [now exists [], (d :: s)|].
        apply Hcons. now apply IH.
      * rewrite split_cons2 by assumption.
        destruct (@split_first_prefix s d Hd) as (w1 & ws & t & E1 & E2).
        rewrite E1. simpl. intros [<-|H].
        -- exists [], t. simpl. now rewrite E2.
        -- apply Hcons. apply IH. rewrite E1. now right.
Qed.

(** A block without ordinary space inside single-spaced words lies in
    one of the words. *)
Lemma join_infix (p : str) (ws : list str) :
  p <> [] -> ~ In 32%N p -> infix p (join [32%N] ws) ->
  exists w, In w ws /\ infix p w.
Proof.
  intros Hp Hx. induction ws as [|w ws IH].
  - intros (a & b & E). simpl in E.
    destruct a; [destruct p; [congruence | discriminate] | discriminate].
  - destruct ws as [|w' ws].
    + intros H. exists w. split; [now left | exact H].
    + rewrite join_cons2. cbn [app]. intros H.
      apply infix_app_sep in H as [H|H]; try assumption.
      * exists w. split; [now left | exact H].
      * destruct (IH H) as (v & Hv & Hpv). exists v. split; [now right | exact Hpv].
Qed.

(** ** [_clean_text] *)

Lemma clean_text_words (t : str) :
  clean_text (Some t) = join [32%N] (split (unescape_nbsp t)).
Proof.
  unfold clean_text. destruct t as [|c t]; [reflexivity|].
  cbn [truthy negb]. change (lit " ") with [32%N].
  apply strip_join, split_words.
Qed.

Lemma words_no_nbsp_char (ws : list str) :
  Forall word ws -> ~ In 160%N (join [32%N] ws).
Proof.
  intros H Hin. apply (join_words_space _ H) in Hin; [discriminate | reflexivity].
Qed.

Lemma clean_text_no_entity (t : str) :
  contains (lit "&nbsp;") (clean_text (Some t)) = false.
Proof.
  rewrite clean_text_words.
  destruct (contains (lit "&nbsp;") (join [32%N] (split (unescape_nbsp t)))) eqn:E;
    [|reflexivity].
  apply contains_infix in E.
  apply join_infix in E as (w & Hw & Hpw);
    [| discriminate | intros H; cbv in H; intuition discriminate].
  apply split_infix in Hw. pose proof (infix_trans Hpw Hw) as H.
  apply contains_infix in H. unfold unescape_nbsp in H.
  change (lit " ") with [32%N] in H.
  rewrite replace_removes in H; [discriminate | discriminate |].
  intros Hin; cbv in Hin; intuition discriminate.
Qed.

(** A string of single-spaced words without the entity is left as it
    is. *)
Lemma clean_text_fixed (ws : list str) :
  Forall word ws ->
  contains (lit "&nbsp;") (join [32%N] ws) = false ->
  clean_text (Some (join [32%N] ws)) = join [32%N] ws.
Proof.
  intros Hws Hent. rewrite clean_text_words. unfold unescape_nbsp.
  rewrite (replace_absent [160%N]).
  - rewrite replace_absent by exact Hent. now rewrite split_join.
  - destruct (contains [160%N] (join [32%N] ws)) eqn:E; [|reflexivity].
    apply contains_infix in E.
    exfalso. apply (words_no_nbsp_char Hws).
    apply (infix_in 160%N E). now left.
Qed.

(** C9. [_clean_text] gives the empty string on [None] and on the empty
    string.  On every string its result holds no U+00A0 and no [&nbsp;],
    its only whitespace is the ordinary space, never doubled and never at
    an end, and its words are the words of the input once the two
    non-breaking-space spellings have been replaced by spaces; cleaning
    the result again changes nothing.  The sample of the specification
    evaluates to ["a b c"]. *)
Theorem clean_text_normalises_and_is_idempotent :
  clean_text None = []
  /\ clean_text (Some []) = []
  /\ (forall t : str,
        let r := clean_text (Some t) in
        ~ In 160%N r
        /\ contains (lit "&nbsp;") r = false
        /\ (forall c, In c r -> isspace c = true -> c = 32%N)
        /\ no_double_space r = true
        /\ strip r = r
        /\ split r = split (unescape_nbsp t)
        /\ clean_text (Some r) = r)
  /\ clean_text (Some (lit "a" ++ [160; 160]%N ++ lit "b&nbsp;c")) = lit "a b c".
Proof.
  split; [reflexivity|]. split; [reflexivity|]. split; [|reflexivity].
  intros t r. pose proof (clean_text_no_entity t) as Hent. fold r in Hent.
  pose proof (split_words (unescape_nbsp t)) as Hws.
  assert (Hr : r = join [32%N] (split (unescape_nbsp t)))
    by apply clean_text_words.
  rewrite Hr in *. repeat split.
  - now apply words_no_nbsp_char.
  - exact Hent.
  - intros c. now apply join_words_space.
  - now apply no_double_space_join.
  - now apply strip_join.
  - now apply split_join.
  - now apply clean_text_fixed.
Qed.

(** ** Decimal rendering of indices *)

Lemma revapp_nonnil (d acc : Decimal.uint) :
  acc <> Decimal.Nil -> Decimal.revapp d acc <> Decimal.Nil.
Proof.
  revert acc; induction d; intros acc Hacc; simpl; try (apply IHd; discriminate).
  exact Hacc.
Qed.

Lemma to_little_uint_nonnil (n : nat) (acc : Decimal.uint) :
  acc <> Decimal.Nil -> Nat.to_little_uint n acc <> Decimal.Nil.
Proof.
  revert acc; induction n as [|n IH]; intros acc Hacc; simpl; [exact Hacc|].
  apply IH. destruct acc; simpl; try discriminate; congruence.
Qed.

Lemma to_uint_nonnil (n : nat) : Nat.to_uint n <> Decimal.Nil.
Proof.
  unfold Nat.to_uint, Decimal.rev.
  pose proof (@to_little_uint_nonnil n Decimal.zero) as H.
  destruct (Nat.to_little_uint n Decimal.zero) eqn:E;
    try (simpl; apply revapp_nonnil; discriminate).
  exfalso. apply H; [discriminate | reflexivity].
Qed.

Lemma string_of_nat_digit (n : nat) : starts_with_digit (string_of_nat n) = true.
Proof.
  unfold string_of_nat. pose proof (to_uint_nonnil n) as H.
  destruct (Nat.to_uint n); try reflexivity. congruence.
Qed.

Lemma string_of_nat_inj (n m : nat) : string_of_nat n = string_of_nat m -> n = m.
Proof.
  unfold string_of_nat. intros H.
  apply DecimalNat.Unsigned.to_uint_inj.
  apply (f_equal NilEmpty.uint_of_string) in H.
  rewrite !NilEmpty.usu in H. congruence.
Qed.

Lemma append_inj_l (p a b : string) : (p ++ a)%string = (p ++ b)%string -> a = b.
Proof. induction p as [|c p IH]; simpl; [trivial|]. intros H. injection H. exact IH. Qed.

(** ** Field names *)

Lemma not_digit_start (s : string) (n : nat) :
  starts_with_digit s = false -> string_of_nat n <> s.
Proof. intros Hs E. rewrite <- E, string_of_nat_digit in Hs. discriminate. Qed.

#[local] Opaque string_of_nat.

(** Strip the common literal prefix of an equation between field names
    and conclude by the shape of a rendered index. *)
Ltac peel H :=
  cbn in H;
  repeat match type of H with
         | String _ _ = String _ _ => first [discriminate H | injection H as H]
         end.

Ltac field_names H :=
  peel H;
  try discriminate;
  try (exfalso; revert H; apply not_digit_start; reflexivity);
  try (exfalso; symmetry in H; revert H; apply not_digit_start; reflexivity);
  try apply string_of_nat_inj in H.

Lemma title_field_inj (col col' : Column) (i j : nat) :
  title_field col i = title_field col' j -> col = col' /\ i = j.
Proof.
  intros H. destruct col, col', i as [|i], j as [|j]; field_names H; auto.
Qed.

Lemma url_field_inj (col col' : Column) (i j : nat) :
  url_field col i = url_field col' j -> col = col' /\ i = j.
Proof.
  intros H. destruct col, col', i as [|i], j as [|j]; field_names H; auto.
Qed.

Lemma title_url_distinct (col col' : Column) (i j : nat) :
  title_field col i <> url_field col' j.
Proof.
  intros H. destruct col, col', i as [|i], j as [|j]; field_names H.
Qed.

Lemma title_field_not_year_date (col : Column) (i : nat) :
  title_field col i <> "Year" /\ title_field col i <> "Date".
Proof. split; intros H; destruct col, i as [|i]; field_names H. Qed.

Lemma url_field_not_year_date (col : Column) (i : nat) :
  url_field col i <> "Year" /\ url_field col i <> "Date".
Proof. split; intros H; destruct col, i as [|i]; field_names H. Qed.

Lemma in_field_pairs (col : Column) (l : list nat) (h : string) :
  In h (flat_map (field_pair col) l) ->
  exists i, In i l /\ (h = title_field col i \/ h = url_field col i).
Proof.
  rewrite in_flat_map. intros (i & Hi & [<-|[<-|[]]]); exists i; auto.
Qed.

Lemma field_pairs_NoDup (col : Column) (l : list nat) :
  NoDup l -> NoDup (flat_map (field_pair col) l).
Proof.
  induction 1 as [|i l Hi Hl IH]; [constructor|].
  cbn [flat_map field_pair app]. constructor; [|constructor; [|exact IH]].
  - intros [H|H]; [symmetry in H; now apply title_url_distinct in H|].
    apply in_field_pairs in H as (j & Hj & [H|H]).
    + apply title_field_inj in H as [_ ->]. contradiction.
    + now apply title_url_distinct in H.
  - intros H. apply in_field_pairs in H as (j & Hj & [H|H]).
    + symmetry in H. now apply title_url_distinct in H.
    + apply url_field_inj in H as [_ ->]. contradiction.
Qed.

Lemma column_block_pairs (col : Column) (n : nat) :
  column_block col n = flat_map (field_pair col) (0 :: seq 1 (n - 1)).
Proof. reflexivity. Qed.

Lemma column_block_NoDup (col : Column) (n : nat) : NoDup (column_block col n).
Proof.
  rewrite column_block_pairs. apply field_pairs_NoDup.
  change (0 :: seq 1 (n - 1)) with (seq 0 (S (n - 1))). apply seq_NoDup.
Qed.

Lemma column_blocks_disjoint (col col' : Column) (n n' : nat) (h : string) :
  col <> col' -> In h (column_block col n) -> ~ In h (column_block col' n').
Proof.
  rewrite !column_block_pairs. intros Hne H H'.
  apply in_field_pairs in H as (i & _ & H), H' as (j & _ & H').
  destruct H as [->| ->], H' as [H'|H'].
  - now apply title_field_inj in H' as [? _].
  - now apply title_url_distinct in H'.
  - symmetry in H'. now apply title_url_distinct in H'.
  - now apply url_field_inj in H' as [? _].
Qed.

Lemma column_block_not_year_date (col : Column) (n : nat) (h : string) :
  In h (column_block col n) -> h <> "Year" /\ h <> "Date".
Proof.
  rewrite column_block_pairs. intros H.
  apply in_field_pairs in H as (i & _ & [-> | ->]).
  - apply title_field_not_year_date.
  - apply url_field_not_year_date.
Qed.

(** The generated header names are pairwise distinct. *)
Lemma generate_csv_headers_NoDup (ml : MaxLinks) :
  NoDup (generate_csv_headers ml).
Proof.
  rewrite generate_csv_headers_flat. unfold final_headers_spec, logical_columns.
  cbn [flat_map ml_get app]. rewrite app_nil_r.
  assert (Hblocks :
    NoDup (column_block ASIC (ml_asic ml)
           ++ column_block Business (ml_business ml)
           ++ column_block Other (ml_other ml))).
  { apply NoDup_app; [apply column_block_NoDup | |].
    - apply NoDup_app; try apply column_block_NoDup.
      intros h. now apply column_blocks_disjoint.
    - intros h Hh Hin. apply in_app_or in Hin as [Hin|Hin];
        revert Hin; apply (column_blocks_disjoint (col := ASIC) (n := ml_asic ml));
        (discriminate || assumption). }
  assert (Hyd : forall h,
    In h (column_block ASIC (ml_asic ml)
          ++ column_block Business (ml_business ml)
          ++ column_block Other (ml_other ml)) ->
    h <> "Year" /\ h <> "Date").
  { intros h Hin. apply in_app_or in Hin as [Hin|Hin];
      [|apply in_app_or in Hin as [Hin|Hin]];
      now apply column_block_not_year_date in Hin. }
  constructor; [|constructor; [|exact Hblocks]].
  - intros [H|H]; [discriminate|]. now apply Hyd in H as [? _].
  - intros H. now apply Hyd in H as [_ ?].
Qed.

(** ** Dictionaries *)

Lemma dict_get_set_same (k : string) (v : str) (d : dict) :
  dict_get k (dict_set k v d) = Some v.
Proof.
  induction d as [|[k' v'] d IH]; simpl.
  - now rewrite String.eqb_refl.
  - destruct (String.eqb_spec k k'); simpl.
    + now rewrite String.eqb_refl.
    + destruct (String.eqb_spec k k'); [contradiction | exact IH].
Qed.

Lemma dict_get_set_other (k k' : string) (v : str) (d : dict) :
  k <> k' -> dict_get k (dict_set k' v d) = dict_get k d.
Proof.
  intros Hne. induction d as [|[k'' v''] d IH]; simpl.
  - destruct (String.eqb_spec k k'); [contradiction | reflexivity].
  - destruct (String.eqb_spec k' k''); simpl.
    + subst k''. destruct (String.eqb_spec k k'); [contradiction | reflexivity].
    + destruct (String.eqb_spec k k''); [reflexivity | exact IH].
Qed.

Lemma dict_get_keys (k : string) (d : dict) :
  dict_get k d = None <-> ~ In k (dict_keys d).
Proof.
  induction d as [|[k' v'] d IH]; simpl.
  - split; [intros _ [] | reflexivity].
  - destruct (String.eqb_spec k k').
    + split; [discriminate | intros H; exfalso; apply H; now left].
    + rewrite IH. split; [intros H [E|E]; [congruence | contradiction] | tauto].
Qed.

(** A new key goes to the end. *)
Lemma dict_set_new (k : string) (v : str) (d : dict) :
  ~ In k (dict_keys d) -> dict_set k v d = d ++ [(k, v)].
Proof.
  induction d as [|[k' v'] d IH]; simpl; [reflexivity|].
  intros H. destruct (String.eqb_spec k k'); [exfalso; apply H; now left|].
  rewrite IH; [reflexivity | tauto].
Qed.

Lemma has_key_set (k k' : string) (v : str) (d : dict) :
  has_key k (dict_set k' v d) = String.eqb k k' || has_key k d.
Proof.
  unfold has_key. destruct (String.eqb_spec k k') as [->|Hne].
  - now rewrite dict_get_set_same.
  - now rewrite dict_get_set_other.
Qed.

(** ** Normalisation of a record *)

Lemma normalize_from (row_data : dict) (headers : list string) (acc : dict) :
  NoDup headers ->
  (forall h, In h headers -> ~ In h (dict_keys acc)) ->
  fold_left
    (fun normalized header =>
       dict_set header (dict_get_default header [] row_data) normalized)
    headers acc
  = acc ++ List.map (header_value row_data) headers.
Proof.
  intros Hnd. revert acc; induction Hnd as [|h hs Hh Hnd IH]; intros acc Hacc.
  - simpl. now rewrite app_nil_r.
  - cbn [fold_left List.map]. rewrite dict_set_new by (apply Hacc; now left).
    rewrite IH.
    + now rewrite <- app_assoc.
    + intros h' Hh'. unfold dict_keys. rewrite map_app, in_app_iff.
      intros [Hin|[<-|[]]]; [|contradiction].
      revert Hin. apply Hacc. now right.
Qed.

(** For pairwise distinct headers the normalised record lists the headers
    in order, each with the value of the input record or the empty
    string. *)
Lemma normalize_row_data_map (row_data : dict) (headers : list string) :
  NoDup headers ->
  normalize_row_data row_data headers = List.map (header_value row_data) headers.
Proof.
  intros Hnd. unfold normalize_row_data.
  now rewrite normalize_from by (assumption || intros ? ? []).
Qed.

Lemma dict_get_map_header (row_data : dict) (headers : list string) (k : string) :
  dict_get k (List.map (header_value row_data) headers)
  = if in_dec string_dec k headers
    then Some (dict_get_default k [] row_data) else None.
Proof.
  induction headers as [|h hs IH]; [reflexivity|].
  cbn [List.map header_value dict_get]. destruct (String.eqb_spec k h) as [->|Hne].
  - destruct (in_dec string_dec h (h :: hs)) as [_|Hn]; [reflexivity|].
    exfalso. apply Hn. now left.
  - rewrite IH. destruct (in_dec string_dec k hs) as [Hin|Hn],
      (in_dec string_dec k (h :: hs)) as [Hin'|Hn']; try reflexivity.
    + exfalso. apply Hn'. now right.
    + destruct Hin' as [E|Hin']; [congruence | contradiction].
Qed.

Lemma in_column_block (col : Column) (n i : nat) :
  i = 0 \/ i < n ->
  In (title_field col i) (column_block col n)
  /\ In (url_field col i) (column_block col n).
Proof.
  intros Hi. rewrite column_block_pairs.
  assert (Hin : In i (0 :: seq 1 (n - 1))).
  { destruct i as [|i]; [now left | right]. apply in_seq. lia. }
  split; apply in_flat_map; exists i; (split; [exact Hin|]); simpl; auto.
Qed.

Lemma column_block_headers (col : Column) (ml : MaxLinks) (h : string) :
  In h (column_block col (ml_get col ml)) -> In h (generate_csv_headers ml).
Proof.
  rewrite generate_csv_headers_flat. unfold final_headers_spec, logical_columns.
  cbn [flat_map]. intros H. apply in_or_app. right.
  destruct col; cbn [ml_get] in H; rewrite ?in_app_iff; auto.
Qed.

(** C4. Normalising a record against the generated headers of any Schema
    State gives a record whose keys are the header names in header order;
    each header holds the value of the input record when the record has
    the key and the empty string otherwise; a key outside the headers is
    absent from the result.  In particular the fields of an occurrence
    [i] within the widened column that the record lacks are present and
    empty. *)
Theorem normalize_row_data_fills_headers (row_data : dict) (ml : MaxLinks) :
  let headers := generate_csv_headers ml in
  let normalized := normalize_row_data row_data headers in
  dict_keys normalized = headers
  /\ (forall h, In h headers ->
        dict_get h normalized
        = Some (match dict_get h row_data with Some v => v | None => [] end))
  /\ (forall k, ~ In k headers -> dict_get k normalized = None)
  /\ (forall col i, i < ml_get col ml ->
        (dict_get (title_field col i) row_data = None ->
         dict_get (title_field col i) normalized = Some [])
        /\ (dict_get (url_field col i) row_data = None ->
            dict_get (url_field col i) normalized = Some [])).
Proof.
  intros headers normalized.
  assert (E : normalized = List.map (header_value row_data) headers)
    by apply normalize_row_data_map, generate_csv_headers_NoDup.
  assert (Hin : forall h, In h headers ->
            dict_get h normalized
            = Some (match dict_get h row_data with Some v => v | None => [] end)).
  { intros h Hh. rewrite E, dict_get_map_header.
    destruct (in_dec string_dec h headers); [reflexivity | contradiction]. }
  repeat split.
  - rewrite E. unfold dict_keys. rewrite map_map. apply map_id.
  - exact Hin.
  - intros k Hk. rewrite E, dict_get_map_header.
    destruct (in_dec string_dec k headers); [contradiction | reflexivity].
  - intros Hnone. rewrite Hin, Hnone; [reflexivity|].
    apply (@column_block_headers col), in_column_block. now right.
  - intros Hnone. rewrite Hin, Hnone; [reflexivity|].
    apply (@column_block_headers col), in_column_block. now right.
Qed.

#[local] Transparent string_of_nat.

(** ** The Schema State along a run *)

Lemma ml_max_zero (ml : MaxLinks) : ml_max ml ml_zero = ml.
Proof. destruct ml. unfold ml_max. simpl. now rewrite !Nat.max_0_r. Qed.

Lemma ml_max_swap (a b c : MaxLinks) :
  ml_max (ml_max a b) c = ml_max (ml_max a c) b.
Proof. unfold ml_max. simpl. f_equal; lia. Qed.

Lemma ml_le_max (a b : MaxLinks) : ml_le a (ml_max a b).
Proof. intros []; simpl; lia. Qed.

Lemma ml_le_refl (a : MaxLinks) : ml_le a a.
Proof. intros col. lia. Qed.

Lemma ml_le_trans (a b c : MaxLinks) : ml_le a b -> ml_le b c -> ml_le a c.
Proof. intros H1 H2 col. specialize (H1 col). specialize (H2 col). lia. Qed.

(** The row parser raises the Schema State to the counts of the row and
    its record does not depend on the Schema State. *)
Lemma extract_row_data_split (py : Runtime) (row : Row) (year : str)
    (ml : MaxLinks) :
  extract_row_data py row year ml
  = (row_record py row year, ml_max ml (row_counts py row)).
Proof.
  unfold row_record, row_counts, extract_row_data.
  destruct (row_cells row) as [cells|]; [|now rewrite ml_max_zero].
  destruct (List.length cells <? 4)%nat; [now rewrite ml_max_zero|].
  destruct (cell_text (nth 0 cells no_cell)); [|now rewrite ml_max_zero].
  destruct (gazette_titles_urls py (nth 1 cells no_cell)).
  destruct (gazette_titles_urls py (nth 2 cells no_cell)).
  destruct (notes_texts_urls py cells). reflexivity.
Qed.

Lemma extract_rows_from (py : Runtime) (rows : list Row) (year : str)
    (acc : list dict) (ml : MaxLinks) :
  fold_left
    (fun '(data_rows, ml) row =>
       let '(row_data, ml') := extract_row_data py row year ml in
       match row_data with
       | Some d => if truthy_row row_data then (data_rows ++ [d], ml')
                   else (data_rows, ml')
       | None => (data_rows, ml')
       end)
    rows (acc, ml)
  = (acc ++ flat_map (row_records py year) rows,
     fold_left ml_max (List.map (row_counts py) rows) ml).
Proof.
  revert acc ml; induction rows as [|row rows IH]; intros acc ml.
  - simpl. now rewrite app_nil_r.
  - cbn [fold_left List.map flat_map]. rewrite extract_row_data_split.
    assert (Hr : row_records py year row
                 = match row_record py row year with
                   | Some (field :: fields) => [field :: fields]
                   | _ => []
                   end) by reflexivity.
    rewrite Hr.
    destruct (row_record py row year) as [[|field fields]|];
      cbn [truthy_row]; rewrite IH; try reflexivity.
    now rewrite <- app_assoc.
Qed.

(** The table loop: the records of the rows in document order, and the
    Schema State raised by every row. *)
Lemma extract_rows_split (py : Runtime) (rows : list Row) (year : str)
    (ml : MaxLinks) :
  extract_rows py rows year ml
  = (flat_map (row_records py year) rows,
     fold_left ml_max (List.map (row_counts py) rows) ml).
Proof. unfold extract_rows. now rewrite extract_rows_from. Qed.

Lemma fold_ml_max_le (counts : list MaxLinks) (ml : MaxLinks) :
  ml_le ml (fold_left ml_max counts ml).
Proof.
  revert ml; induction counts as [|c counts IH]; intros ml; [apply ml_le_refl|].
  simpl. eapply ml_le_trans; [apply ml_le_max | apply IH].
Qed.

Lemma fold_ml_max_perm (counts counts' : list MaxLinks) (ml : MaxLinks) :
  Permutation counts counts' ->
  fold_left ml_max counts ml = fold_left ml_max counts' ml.
Proof.
  intros Hp. revert ml; induction Hp; intros ml; simpl.
  - reflexivity.
  - apply IHHp.
  - now rewrite ml_max_swap.
  - now rewrite IHHp1.
Qed.

(** C1. The generated header list is [Year], [Date], then for each
    logical column in the fixed order its index-0 pair followed by the
    indexed pairs for [i] from 1 to [max_occurrences - 1]; it is a
    function of the Schema State alone, and the Schema State reached over
    a sequence of rows, hence the header list, is the same for every
    order of the rows. *)
Theorem generate_csv_headers_spec (py : Runtime) :
  (forall ml, generate_csv_headers ml = final_headers_spec ml)
  /\ (forall rows rows' year year' ml,
        Permutation rows rows' ->
        generate_csv_headers (snd (extract_rows py rows year ml))
        = generate_csv_headers (snd (extract_rows py rows' year' ml))).
Proof.
  split; [apply generate_csv_headers_flat|].
  intros rows rows' year year' ml Hp. rewrite !extract_rows_split. cbn [snd].
  f_equal. apply fold_ml_max_perm. now apply Permutation_map.
Qed.

Lemma generate_csv_headers_spec_witness :
  generate_csv_headers
    (snd (extract_rows py0 [row_one_link; row_three_links] (lit "2020")
            max_links_init))
  = generate_csv_headers
      (snd (extract_rows py0 [row_three_links; row_one_link] (lit "2020")
              max_links_init)).
Proof.
  apply (proj2 (generate_csv_headers_spec py0)). apply perm_swap.
Defined.

(** The header filter keeps the rows without [th] in document order and
    raises when the lookup raises on a row. *)
Lemma rows_without_th_from (rows kept : list Row) :
  for_each
    (fun kept row =>
       has_th <- row_has_th row ;;
       Some (if has_th then kept else kept ++ [row]))
    rows kept
  = if forallb th_readable rows then Some (kept ++ filter without_th rows)
    else None.
Proof.
  revert kept; induction rows as [|row rows IH]; intros kept.
  - simpl. now rewrite app_nil_r.
  - cbn [for_each forallb filter]. unfold th_readable at 1, without_th at 1.
    destruct (row_has_th row) as [[|]|]; cbn [andb negb]; [| |reflexivity];
      rewrite IH; destruct (forallb th_readable rows); try reflexivity.
    now rewrite <- app_assoc.
Qed.

Lemma rows_without_th_filter (rows : list Row) :
  rows_without_th rows
  = if forallb th_readable rows then Some (filter without_th rows) else None.
Proof. unfold rows_without_th. now rewrite rows_without_th_from. Qed.

(** The table parser runs the loop over the rows the lookups give, and
    gives nothing when a lookup raises. *)
Lemma extract_table_data_rows (py : Runtime) (table : Table) (year : str)
    (ml : MaxLinks) :
  extract_table_data py table year ml
  = match parsed_rows table with
    | Some rows => extract_rows py rows year ml
    | None => ([], ml)
    end.
Proof.
  unfold extract_table_data, parsed_rows.
  destruct (table_rows table) as [rows|rows|]; try reflexivity.
  now destruct (rows_without_th rows).
Qed.

Lemma extract_table_data_grows (py : Runtime) (table : Table) (year : str)
    (ml : MaxLinks) :
  ml_le ml (snd (extract_table_data py table year ml)).
Proof.
  rewrite extract_table_data_rows.
  destruct (parsed_rows table); rewrite ?extract_rows_split; cbn [snd];
    [apply fold_ml_max_le | apply ml_le_refl].
Qed.

Lemma extract_year_data_grows (py : Runtime) (elem : Element) (year : str)
    (ml : MaxLinks) :
  ml_le ml (snd (extract_year_data py elem year ml)).
Proof.
  unfold extract_year_data. destruct (find_table elem);
    [apply extract_table_data_grows | apply ml_le_refl].
Qed.

Lemma process_tables_grows (py : Runtime) (tables : list Table) (self : Scraper) :
  ml_le (max_links self) (max_links (process_tables py tables self)).
Proof.
  unfold process_tables. generalize (enumerate (firstn 3 tables)) as l.
  intros l; revert self; induction l as [|[i table] l IH]; intros self;
    [apply ml_le_refl|].
  cbn [fold_left]. eapply ml_le_trans; [|apply IH].
  pose proof (extract_table_data_grows py table
                (lit ("Table_" ++ string_of_nat i)%string) (max_links self)) as H.
  destruct (extract_table_data py table _ (max_links self)). exact H.
Qed.

Lemma process_year_elements_grows (py : Runtime) (elems : list Element)
    (self : Scraper) :
  ml_le (max_links self) (max_links (process_year_elements py elems self)).
Proof.
  unfold process_year_elements.
  revert self; induction elems as [|elem elems IH]; intros self;
    [apply ml_le_refl|].
  cbn [fold_left]. eapply ml_le_trans; [|apply IH].
  pose proof (extract_year_data_grows py elem
                (year_label (clean_text (Some (elem_text elem))))
                (max_links self)) as H.
  destruct (extract_year_data py elem _ (max_links self)). exact H.
Qed.

(** No operation of a run lowers an entry of the Schema State, and an
    entry that starts at 1 stays at least 1. *)
Lemma scrape_data_grows (py : Runtime) (page : Page) (self : Scraper) :
  ml_le (max_links self) (max_links (snd (scrape_data py page self))).
Proof.
  unfold scrape_data. destruct (find_year_elements py page) as [elems|];
    [|apply ml_le_refl].
  destruct (negb (truthy_list elems)); cbn [snd].
  - destruct (truthy_list (page_tables page));
      [apply process_tables_grows | apply ml_le_refl].
  - apply process_year_elements_grows.
Qed.

Lemma scrape_data_at_least_one (py : Runtime) (page : Page) (col : Column) :
  1 <= ml_get col (max_links (snd (scrape_data py page scraper_init))).
Proof.
  pose proof (scrape_data_grows py page scraper_init col) as H.
  destruct col; exact H.
Qed.

(** ** The row parser on links without [href] *)

(** C2. On the row whose ASIC Gazette cell holds a link without [href]
    and a complete link, the row parser writes one occurrence of the
    column (index 0) and raises the entry of the Schema State to 2, the
    number of titles, not to the number of occurrences written. *)
Theorem max_links_counts_titles_not_occurrences :
  exists record,
    extract_row_data py0 row_link_without_href (lit "2020") max_links_init
    = (Some record, {| ml_asic := 2; ml_business := 1; ml_other := 1 |})
    /\ occurrences ASIC record = 1
    /\ dict_get "ASIC Gazette_title" record = Some (lit "A05/20")
    /\ dict_get "ASIC Gazette_Url" record = Some (lit "https://asic.gov.au/a06.pdf")
    /\ dict_get "ASIC Gazette_1" record = None.
Proof. eexists. split; [reflexivity|]. repeat split. Qed.

(** C3. On the row whose ASIC Gazette cell holds a single link without
    [href], the row parser accepts the row and writes no occurrence of
    the column: the record has neither ['ASIC Gazette_title'] nor
    ['ASIC Gazette_Url']. *)
Theorem accepted_row_without_index0_fields :
  exists record ml,
    extract_row_data py0 row_only_link_without_href (lit "2020") max_links_init
    = (Some record, ml)
    /\ occurrences ASIC record = 0
    /\ dict_get "ASIC Gazette_title" record = None
    /\ dict_get "ASIC Gazette_Url" record = None.
Proof. do 2 eexists. split; [reflexivity|]. repeat split. Qed.

Lemma normalize_row_data_fills_headers_witness :
  2 < ml_get ASIC max_links_one_three
  /\ dict_get "ASIC Gazette_2" record_one_link = None
  /\ dict_get "ASIC Gazette_2"
       (normalize_row_data record_one_link
          (generate_csv_headers max_links_one_three))
     = Some []
  /\ dict_get "ASIC Gazette_Url_1"
       (normalize_row_data record_one_link
          (generate_csv_headers max_links_one_three))
     = Some [].
Proof.
  pose proof (normalize_row_data_fills_headers record_one_link
                max_links_one_three) as (_ & _ & _ & H).
  split; [vm_compute; lia|]. split; [reflexivity|]. split.
  - apply (proj1 (H ASIC 2 ltac:(vm_compute; lia))). reflexivity.
  - apply (proj2 (H ASIC 1 ltac:(vm_compute; lia))). reflexivity.
Defined.

(** ** Rejected and failing rows *)

Lemma row_record_none_counts (py : Runtime) (row : Row) (year : str) :
  row_record py row year = None -> row_counts py row = ml_zero.
Proof.
  unfold row_record, row_counts, extract_row_data.
  destruct (row_cells row) as [cells|]; [|reflexivity].
  destruct (List.length cells <? 4)%nat; [reflexivity|].
  destruct (cell_text (nth 0 cells no_cell)); [|reflexivity].
  destruct (gazette_titles_urls py (nth 1 cells no_cell)).
  destruct (gazette_titles_urls py (nth 2 cells no_cell)).
  destruct (notes_texts_urls py cells). discriminate.
Qed.

Lemma row_record_none_records (py : Runtime) (row : Row) (year : str) :
  row_record py row year = None -> row_records py year row = [].
Proof. unfold row_records. now intros ->. Qed.

Lemma extract_rows_skip (py : Runtime) (rows1 rows2 : list Row) (row : Row)
    (year : str) (ml : MaxLinks) :
  row_record py row year = None ->
  extract_rows py (rows1 ++ row :: rows2) year ml
  = extract_rows py (rows1 ++ rows2) year ml.
Proof.
  intros Hnone. rewrite !extract_rows_split.
  rewrite !flat_map_app, !map_app, !fold_left_app. cbn [flat_map List.map fold_left].
  rewrite (row_record_none_records _ _ _ Hnone).
  rewrite (row_record_none_counts _ _ _ Hnone), ml_max_zero. reflexivity.
Qed.

(** The records of the loop over the rows: those of the rows, in
    document order. *)
Lemma extract_rows_records (py : Runtime) (rows : list Row) (year : str)
    (ml : MaxLinks) :
  fst (extract_rows py rows year ml) = flat_map (row_records py year) rows.
Proof. now rewrite extract_rows_split. Qed.

Lemma forallb_th_readable_skip (rows1 rows2 : list Row) (row : Row) :
  th_readable row = true ->
  forallb th_readable (rows1 ++ row :: rows2)
  = forallb th_readable (rows1 ++ rows2).
Proof.
  intros Hth. rewrite !forallb_app. cbn [forallb]. now rewrite Hth.
Qed.

(** C8.  On a table without [tbody] that holds a detached row between
    two data rows, the row parser gives no record for the detached row
    and the table parser gives no record at all: the header filter looks
    up the [th] of every row before the loop and outside the row parser,
    and the lookup raises on the detached row.  The claim asks for the
    records of the two other rows, which the same rows give under a
    [tbody], and which the table gives without the detached row. *)
Theorem detached_row_aborts_table_without_tbody :
  extract_row_data py0 detached_row (lit "2020") max_links_init
  = (None, max_links_init)
  /\ extract_table_data py0
       (table_without_tbody [row_one_link; detached_row; row_three_links])
       (lit "2020") max_links_init
     = ([], max_links_init)
  /\ fst (extract_table_data py0
            (a_table true [row_one_link; detached_row; row_three_links])
            (lit "2020") max_links_init)
     = [record_one_link; record_three_links]
  /\ fst (extract_table_data py0
            (table_without_tbody [row_one_link; row_three_links])
            (lit "2020") max_links_init)
     = [record_one_link; record_three_links].
Proof. repeat split. Qed.

(** ** The year label of the records *)

Lemma initial_append (col x : string) :
  col <> "" -> initial (col ++ x) = initial col.
Proof. destruct col; [congruence | reflexivity]. Qed.

Lemma fold_left_get_other (A : Type) (f : dict -> A -> dict) (k : string) :
  (forall d a, dict_get k (f d a) = dict_get k d) ->
  forall l d, dict_get k (fold_left f l d) = dict_get k d.
Proof.
  intros Hf l. induction l as [|a l IH]; intros d; [reflexivity|].
  simpl. now rewrite IH, Hf.
Qed.

Lemma dict_get_set_initial (k k' : string) (v : str) (d : dict) :
  initial k <> initial k' -> dict_get k (dict_set k' v d) = dict_get k d.
Proof. intros H. apply dict_get_set_other. congruence. Qed.

(** Storing a Gazette column touches only names that start as the
    column name does. *)
Lemma store_gazette_get_other (col k : string) (titles urls : list str)
    (d : dict) :
  col <> "" -> initial k <> initial col ->
  dict_get k (store_gazette col titles urls d) = dict_get k d.
Proof.
  intros Hcol Hk. unfold store_gazette. apply fold_left_get_other.
  intros d' [i [title url]].
  destruct (i =? 0)%nat;
    rewrite !dict_get_set_initial; rewrite ?initial_append; auto.
Qed.

Lemma store_notes_get_other (k : string) (texts urls : list str) (d : dict) :
  initial k <> Some "O"%char ->
  dict_get k (store_notes texts urls d) = dict_get k d.
Proof.
  intros Hk. unfold store_notes. destruct (truthy_list texts).
  - rewrite fold_left_get_other.
    + apply fold_left_get_other. intros d' [i text].
      destruct (i =? 0)%nat; now rewrite !dict_get_set_initial.
    + intros d' i. now rewrite dict_get_set_initial.
  - now rewrite !dict_get_set_initial.
Qed.

(** The record of a row carries the year label it was parsed under. *)
Lemma row_record_year (py : Runtime) (row : Row) (year : str) (d : dict) :
  row_record py row year = Some d -> dict_get "Year" d = Some year.
Proof.
  unfold row_record, extract_row_data.
  destruct (row_cells row) as [cells|]; [|discriminate].
  destruct (List.length cells <? 4)%nat; [discriminate|].
  destruct (cell_text (nth 0 cells no_cell)); [|discriminate].
  destruct (gazette_titles_urls py (nth 1 cells no_cell)).
  destruct (gazette_titles_urls py (nth 2 cells no_cell)).
  destruct (notes_texts_urls py cells). cbn [fst]. intros [= <-].
  rewrite store_notes_get_other by discriminate.
  rewrite !store_gazette_get_other by discriminate. reflexivity.
Qed.

Lemma extract_table_data_year (py : Runtime) (table : Table) (year : str)
    (ml : MaxLinks) (d : dict) :
  In d (fst (extract_table_data py table year ml)) ->
  dict_get "Year" d = Some year.
Proof.
  assert (Hrows : forall rows,
            In d (fst (extract_rows py rows year ml)) ->
            dict_get "Year" d = Some year).
  { intros rows. rewrite extract_rows_split. cbn [fst].
    rewrite in_flat_map. intros (row & _ & Hd). unfold row_records in Hd.
    destruct (row_record py row year) as [[|field fields]|] eqn:E;
      try contradiction.
    destruct Hd as [<-|[]]. now apply row_record_year in E. }
  rewrite extract_table_data_rows.
  destruct (parsed_rows table); [apply Hrows | intros []].
Qed.

Lemma extract_year_data_year (py : Runtime) (elem : Element) (year : str)
    (ml : MaxLinks) (d : dict) :
  In d (fst (extract_year_data py elem year ml)) ->
  dict_get "Year" d = Some year.
Proof.
  unfold extract_year_data. destruct (find_table elem);
    [apply extract_table_data_year | intros []].
Qed.

Lemma find_existsb_false (A : Type) (f : A -> bool) (l : list A) :
  existsb f l = false -> find f l = None.
Proof.
  induction l as [|a l IH]; [reflexivity|]. simpl.
  destruct (f a); [discriminate | exact IH].
Qed.

Lemma year_label_unknown (text : str) :
  has_year_token text = false -> year_label text = lit "Unknown".
Proof.
  unfold has_year_token, year_label. intros H.
  now rewrite (find_existsb_false _ _ H).
Qed.

(** C10. An anchor whose cleaned text contains none of the ten tokens
    ['2020'] to ['2011'] gets the year label ["Unknown"], and so do the
    records of its table.  The texts ['2021'] to ['2025'] are accepted by
    the whole-text scan, contain none of the tokens and are labelled
    ["Unknown"]. *)
Theorem unknown_year_label (py : Runtime) :
  (forall text,
      (forall token, In token year_tokens -> contains (lit token) text = false) ->
      year_label text = lit "Unknown")
  /\ Forall
       (fun y =>
          is_year_text py (clean_text (Some (lit y))) = Some true
          /\ has_year_token (clean_text (Some (lit y))) = false
          /\ year_label (clean_text (Some (lit y))) = lit "Unknown")
       ["2021"; "2022"; "2023"; "2024"; "2025"]
  /\ (forall year_elements self record,
        (forall elem, In elem year_elements ->
           has_year_token (clean_text (Some (elem_text elem))) = false) ->
        In record (all_data (process_year_elements py year_elements self)) ->
        In record (all_data self)
        \/ dict_get "Year" record = Some (lit "Unknown")).
Proof.
  split; [|split].
  - intros text H. apply year_label_unknown. unfold has_year_token.
    destruct (existsb _ year_tokens) eqn:E; [|reflexivity].
    apply existsb_exists in E as (token & Hin & Hc).
    rewrite (H token Hin) in Hc. discriminate.
  - repeat constructor.
  - intros elems. unfold process_year_elements.
    induction elems as [|elem elems IH]; intros self record Hall Hin;
      [now left|].
    cbn [fold_left] in Hin.
    pose proof (@extract_year_data_year py elem
                  (year_label (clean_text (Some (elem_text elem))))
                  (max_links self) record) as Hyear.
    destruct (extract_year_data py elem _ (max_links self)) as [year_data ml].
    apply IH in Hin; [|intros e He; apply Hall; now right].
    destruct Hin as [Hin|Hin]; [|now right].
    cbn [all_data] in Hin. apply in_app_or in Hin as [Hin|Hin]; [now left|].
    right. rewrite (Hyear Hin). f_equal. apply year_label_unknown.
    apply Hall. now left.
Qed.

Lemma unknown_year_label_witness :
  fst (scrape_data py0 page_2023 scraper_init) = Some [record_2023]
  /\ dict_get "Year" record_2023 = Some (lit "Unknown").
Proof.
  split; [reflexivity|].
  pose proof (unknown_year_label py0) as (_ & _ & H).
  destruct (H [anchor_2023] scraper_init record_2023) as [[]|Hy].
  - intros elem [<-|[]]. reflexivity.
  - left. reflexivity.
  - exact Hy.
Defined.

(** ** The fallback of the orchestrator *)

Lemma in_enumerate_from (A : Type) (l : list A) (a i : nat) (x : A) :
  In (i, x) (combine (seq a (List.length l)) l) ->
  a <= i /\ nth_error l (i - a) = Some x.
Proof.
  revert a; induction l as [|y l IH]; intros a; [intros []|].
  simpl. intros [[= <- <-]|H].
  - split; [lia|]. now rewrite Nat.sub_diag.
  - apply IH in H as [Hle Hnth]. split; [lia|].
    replace (i - a) with (S (i - S a)) by lia. exact Hnth.
Qed.

Lemma in_enumerate (A : Type) (l : list A) (i : nat) (x : A) :
  In (i, x) (enumerate l) -> nth_error l i = Some x.
Proof.
  intros H. apply in_enumerate_from in H as [_ H]. now rewrite Nat.sub_0_r in H.
Qed.


Lemma extract_table_data_records (py : Runtime) (table : Table) (year : str)
    (ml : MaxLinks) :
  fst (extract_table_data py table year ml) = table_records py table year.
Proof.
  unfold table_records. rewrite !extract_table_data_rows.
  destruct (parsed_rows table); now rewrite ?extract_rows_split.
Qed.

Lemma process_tables_from (py : Runtime) (l : list (nat * Table))
    (self : Scraper) :
  all_data
    (fold_left
       (fun self '(i, table) =>
          let '(table_data, ml) :=
            extract_table_data py table
              (lit ("Table_" ++ string_of_nat i)%string) (max_links self) in
          {| all_data := all_data self ++ table_data; max_links := ml |})
       l self)
  = all_data self ++ flat_map (indexed_table_records py) l.
Proof.
  revert self; induction l as [|[i table] l IH]; intros self.
  - simpl. now rewrite app_nil_r.
  - cbn [fold_left flat_map].
    pose proof (extract_table_data_records py table
                  (lit ("Table_" ++ string_of_nat i)%string) (max_links self))
      as Hrec.
    destruct (extract_table_data py table _ (max_links self)) as [data ml].
    rewrite IH. cbn [all_data fst] in *. rewrite Hrec, <- app_assoc.
    reflexivity.
Qed.

Lemma process_tables_all_data (py : Runtime) (tables : list Table)
    (self : Scraper) :
  all_data (process_tables py tables self)
  = all_data self
    ++ flat_map (indexed_table_records py) (enumerate (firstn 3 tables)).
Proof. unfold process_tables. apply process_tables_from. Qed.

(** C7, as the code has it.  When the discovery cascade finds no year
    anchor, the run returns what was accumulated followed by the records
    of the first three tables of the page, displayed or not, in document
    order; the records of the table at index [i] carry the year
    ["Table_<i>"], and a table whose row lookup fails gives none. *)
Theorem fallback_parses_first_three_tables (py : Runtime) (page : Page)
    (self : Scraper) :
  find_year_elements py page = Some [] ->
  let tables := firstn 3 (page_tables page) in
  fst (scrape_data py page self)
  = Some (all_data self ++ flat_map (indexed_table_records py) (enumerate tables))
  /\ List.length tables <= 3
  /\ (forall i table record,
        In (i, table) (enumerate tables) ->
        In record (indexed_table_records py (i, table)) ->
        nth_error (page_tables page) i = Some table
        /\ dict_get "Year" record
           = Some (lit ("Table_" ++ string_of_nat i)%string))
  /\ (forall i table,
        table_rows table = BrokenTable ->
        indexed_table_records py (i, table) = []).
Proof.
  intros Hfind tables. repeat split.
  - unfold scrape_data. rewrite Hfind. cbn [truthy_list negb fst].
    subst tables.
    destruct (page_tables page) as [|t ts]; cbn [truthy_list].
    + simpl. now rewrite app_nil_r.
    + now rewrite process_tables_all_data.
  - apply firstn_le_length.
  - apply in_enumerate in H. subst tables.
    rewrite nth_error_firstn in H.
    destruct (i <? 3)%nat; [exact H | discriminate].
  - revert H0. unfold indexed_table_records, table_records. cbn [fst snd].
    apply extract_table_data_year.
  - intros i table Hbroken. unfold indexed_table_records, table_records,
      extract_table_data. cbn [fst snd]. now rewrite Hbroken.
Qed.

Lemma fallback_parses_first_three_tables_witness :
  List.map (dict_get "Year")
    (match fst (scrape_data py0 page_two_tables scraper_init) with
     | Some records => records
     | None => []
     end)
  = [Some (lit "Table_0"); Some (lit "Table_1")].
Proof.
  rewrite (proj1 (fallback_parses_first_three_tables py0 page_two_tables
                    scraper_init eq_refl)).
  reflexivity.
Defined.

(** C7, the claim as stated, on a page without year anchor whose first
    table is hidden and whose second table is visible: the run parses
    both tables and labels the visible one ["Table_1"], where parsing the
    visible tables only gives one record, labelled ["Table_0"]. *)
Lemma fallback_parses_hidden_tables :
  find_year_elements py0 page_hidden_table = Some []
  /\ List.map (dict_get "Year")
       (match fst (scrape_data py0 page_hidden_table scraper_init) with
        | Some records => records
        | None => []
        end)
     = [Some (lit "Table_0"); Some (lit "Table_1")]
  /\ List.map (dict_get "Year")
       (all_data (visible_tables_fallback py0 page_hidden_table scraper_init))
     = [Some (lit "Table_0")]
  /\ fst (scrape_data py0 page_hidden_table scraper_init)
     <> Some (all_data
                (visible_tables_fallback py0 page_hidden_table scraper_init)).
Proof.
  split; [reflexivity|]. split; [reflexivity|]. split; [reflexivity|].
  intros H. apply (f_equal (option_map (@List.length dict))) in H.
  vm_compute in H. discriminate.
Qed.

(** ** The link extractor *)

(** The loop of the link extractor over links that can be read: the
    titles that are not empty and the resolved URLs, unless [urljoin]
    raises. *)
Lemma links_loop (py : Runtime) (links : list Link) (titles urls : list str) :
  Forall readable links ->
  for_each
    (fun '(titles, urls) link =>
       text <- link_text link ;;
       let title := clean_text (Some text) in
       url <- link_href link ;;
       let titles := if truthy title then titles ++ [title] else titles in
       match url with
       | Some u =>
           if truthy u then
             resolved_url <- resolve_url py (strip u) ;;
             Some (titles, urls ++ [resolved_url])
           else Some (titles, urls)
       | None => Some (titles, urls)
       end)
    links (titles, urls)
  = (link_urls <- resolved_urls py links ;;
     Some (titles ++ flat_map title_entries links, urls ++ link_urls)).
Proof.
  intros Hall. revert titles urls.
  induction Hall as [|link links [Ht Hh] _ IH]; intros titles urls.
  - simpl. now rewrite !app_nil_r.
  - cbn [for_each flat_map resolved_urls].
    unfold title_entries at 1, has_href, resolved_href, href_or_empty.
    destruct (link_text link) as [text|]; [|congruence].
    destruct (link_href link) as [[href|]|]; [| |congruence].
    + destruct (truthy href).
      * destruct (resolve_url py (strip href)) as [url|]; [|reflexivity].
        rewrite IH. destruct (resolved_urls py links); [|reflexivity].
        destruct (truthy (clean_text (Some text)));
          now rewrite <- ?app_assoc.
      * rewrite IH. destruct (resolved_urls py links); [|reflexivity].
        destruct (truthy (clean_text (Some text)));
          now rewrite <- ?app_assoc.
    + cbn [truthy]. rewrite IH.
      destruct (resolved_urls py links); [|reflexivity].
      destruct (truthy (clean_text (Some text)));
        now rewrite <- ?app_assoc.
Qed.

(** The link extractor on a cell whose links can be read. *)
Lemma extract_multiple_links_data_entries (py : Runtime) (cell : Cell)
    (links : list Link) :
  cell_links cell = Some links -> Forall readable links ->
  extract_multiple_links_data py cell
  = match resolved_urls py links with
    | Some urls => (flat_map title_entries links, urls)
    | None => ([], [])
    end.
Proof.
  intros Hlinks Hall. unfold extract_multiple_links_data. rewrite Hlinks.
  destruct links as [|link links]; [reflexivity|].
  pose proof (links_loop py [] [] Hall) as H. cbv zeta in *.
  rewrite H. now destruct (resolved_urls py (link :: links)).
Qed.

(** The URLs of a list of links, link by link. *)
Lemma resolved_urls_some (py : Runtime) (links : list Link) (urls : list str) :
  resolved_urls py links = Some urls
  <-> Forall2 (fun link url => resolved_href py link = Some url)
        (filter has_href links) urls.
Proof.
  revert urls; induction links as [|link links IH]; intros urls.
  - simpl. split; [intros [= <-]; constructor | now inversion 1].
  - cbn [resolved_urls filter]. destruct (has_href link); [|apply IH].
    destruct (resolved_href py link) as [url|] eqn:Eu.
    + destruct (resolved_urls py links) as [urls'|] eqn:Er.
      * split.
        -- intros [= <-]. constructor; [exact Eu | now apply IH].
        -- inversion 1 as [|? url' ? urls'' Hu Hrest]; subst.
           apply IH in Hrest. congruence.
      * split; [discriminate|].
        inversion 1 as [|? url' ? urls'' Hu Hrest]; subst.
        apply IH in Hrest. discriminate.
    + split; [discriminate|].
      inversion 1 as [|? url' ? urls'' Hu Hrest]; subst. congruence.
Qed.

Lemma resolved_urls_none (py : Runtime) (links : list Link) :
  resolved_urls py links = None
  <-> exists link,
        In link links /\ has_href link = true /\ resolved_href py link = None.
Proof.
  induction links as [|link links IH].
  - simpl. split; [discriminate | now intros (link & [] & _)].
  - cbn [resolved_urls]. destruct (has_href link) eqn:Eh.
    + destruct (resolved_href py link) as [url|] eqn:Eu.
      * destruct (resolved_urls py links) as [urls|] eqn:Er.
        -- split; [discriminate|].
           intros (link' & [<-|Hin] & Hh & Hu); [congruence|].
           assert (Hn : Some urls = None) by (apply IH; now exists link').
           discriminate.
        -- split; [|reflexivity]. intros _.
           destruct (proj1 IH eq_refl) as (link' & Hin & H).
           exists link'. split; [now right | exact H].
      * split; [|reflexivity]. intros _. exists link.
        split; [now left | now split].
    + rewrite IH. split.
      * intros (link' & Hin & H). exists link'. split; [now right | exact H].
      * intros (link' & [<-|Hin] & Hh & Hu); [congruence|].
        now exists link'.
Qed.

(** The loop of [_extract_cell_content] over links that can be read. *)
Lemma hrefs_loop (py : Runtime) (links : list Link) (urls : list str) :
  Forall readable links ->
  for_each
    (fun urls link =>
       url <- link_href link ;;
       match url with
       | Some u =>
           if truthy u then
             resolved_url <- resolve_url py (strip u) ;;
             Some (urls ++ [resolved_url])
           else Some urls
       | None => Some urls
       end)
    links urls
  = (link_urls <- resolved_urls py links ;; Some (urls ++ link_urls)).
Proof.
  intros Hall. revert urls.
  induction Hall as [|link links [_ Hh] _ IH]; intros urls.
  - simpl. now rewrite app_nil_r.
  - cbn [for_each resolved_urls].
    unfold has_href, resolved_href, href_or_empty.
    destruct (link_href link) as [[href|]|]; [| |congruence].
    + destruct (truthy href).
      * destruct (resolve_url py (strip href)) as [url|]; [|reflexivity].
        rewrite IH. destruct (resolved_urls py links); [|reflexivity].
        now rewrite <- app_assoc.
      * apply IH.
    + cbn [truthy]. apply IH.
Qed.

Lemma extract_cell_content_entries (py : Runtime) (cell : Cell) (text : str)
    (links : list Link) :
  cell_text cell = Some text ->
  cell_links cell = Some links -> Forall readable links ->
  extract_cell_content py cell
  = match resolved_urls py links with
    | Some urls => (clean_text (Some text), urls)
    | None => ([], [])
    end.
Proof.
  intros Htext Hlinks Hall. unfold extract_cell_content.
  rewrite Htext, Hlinks, (hrefs_loop py [] Hall).
  now destruct (resolved_urls py links).
Qed.

(** When [urljoin] raises on one [href], both extractors give up the
    cell. *)
Lemma extractors_unresolved (py : Runtime) (cell : Cell) (links : list Link) :
  cell_links cell = Some links -> Forall readable links ->
  resolved_urls py links = None ->
  extract_cell_content py cell = ([], [])
  /\ extract_multiple_links_data py cell = ([], []).
Proof.
  intros Hlinks Hall Hnone. split.
  - destruct (cell_text cell) as [text|] eqn:Htext.
    + now rewrite (extract_cell_content_entries py cell Htext Hlinks Hall), Hnone.
    + unfold extract_cell_content. now rewrite Htext.
  - now rewrite (extract_multiple_links_data_entries py cell Hlinks Hall), Hnone.
Qed.

(** C5.  On a cell with three links of which the second has no [href],
    the extractor returns three titles and two URLs, and zipping them
    gives two pairs: the second link is paired with the URL of the
    third, and the third link has no pair.  The claim asks for one pair
    per link, the second with the empty string as URL. *)
Theorem link_without_href_misaligns_pairs :
  extract_multiple_links_data py0 cell_middle_link_without_href
  = ([lit "A10/20"; lit "A11/20"; lit "A12/20"],
     [lit "https://asic.gov.au/a10.pdf"; lit "https://asic.gov.au/a12.pdf"])
  /\ link_pairs py0 cell_middle_link_without_href
     = [(lit "A10/20", lit "https://asic.gov.au/a10.pdf");
        (lit "A11/20", lit "https://asic.gov.au/a12.pdf")]
  /\ link_pairs_spec py0 cell_middle_link_without_href
     = Some [(lit "A10/20", lit "https://asic.gov.au/a10.pdf");
             (lit "A11/20", []);
             (lit "A12/20", lit "https://asic.gov.au/a12.pdf")].
Proof. repeat split. Qed.

(** ** The Other / Notes column of a 4-cell row *)

Lemma notes_url_key (i : nat) :
  1 <= i -> ("Other / Notes_URL_" ++ string_of_nat i)%string = url_field Other i.
Proof. destruct i; [lia | reflexivity]. Qed.











(** * Further properties of the code *)

(** ** Schema State, headers and normalisation *)

(** X1. Over a whole run of [scrape_data], whichever path it takes and
    whether or not it raises, no entry of the Schema State decreases; a
    scraper that starts from [__init__] ends with every entry at least
    1. *)
Theorem schema_state_never_shrinks (py : Runtime) (page : Page) :
  (forall self col,
      ml_get col (max_links self)
      <= ml_get col (max_links (snd (scrape_data py page self))))
  /\ (forall col,
        1 <= ml_get col (max_links (snd (scrape_data py page scraper_init)))).
Proof.
  split.
  - intros self col. apply scrape_data_grows.
  - apply scrape_data_at_least_one.
Qed.

Lemma length_field_pairs (col : Column) (l : list nat) :
  List.length (flat_map (field_pair col) l) = 2 * List.length l.
Proof. induction l as [|i l IH]; simpl; [reflexivity | rewrite IH; lia]. Qed.

Lemma length_column_block (col : Column) (n : nat) :
  List.length (column_block col n) = 2 * Nat.max 1 n.
Proof.
  rewrite column_block_pairs, length_field_pairs. simpl List.length.
  rewrite length_seq. lia.
Qed.

(** X2. The generated header names are pairwise distinct, and there are
    two of them plus two per occurrence of each logical column, a column
    counting for one occurrence at least. *)
Theorem generate_csv_headers_distinct_and_counted (ml : MaxLinks) :
  NoDup (generate_csv_headers ml)
  /\ List.length (generate_csv_headers ml)
     = 2 + 2 * (Nat.max 1 (ml_asic ml) + Nat.max 1 (ml_business ml)
                + Nat.max 1 (ml_other ml)).
Proof.
  split; [apply generate_csv_headers_NoDup|].
  rewrite generate_csv_headers_flat. unfold final_headers_spec, logical_columns.
  cbn [flat_map ml_get]. rewrite !length_app, !length_column_block. simpl. lia.
Qed.

(** X3. [save_to_csv] writes nothing when there is no data.  Otherwise it
    hands the writer the generated headers and one row per record, in
    order, each row having exactly the header names as keys, in header
    order. *)
Theorem save_to_csv_uniform_rows (ml : MaxLinks) :
  save_to_csv [] ml = None
  /\ (forall record data,
        exists rows,
          save_to_csv (record :: data) ml
          = Some (generate_csv_headers ml, rows)
          /\ List.length rows = S (List.length data)
          /\ Forall (fun row => dict_keys row = generate_csv_headers ml) rows
          /\ rows
             = List.map
                 (fun row => normalize_row_data row (generate_csv_headers ml))
                 (record :: data)).
Proof.
  split; [reflexivity|]. intros record data. eexists. split; [reflexivity|].
  split; [now rewrite length_map|]. split; [|reflexivity].
  apply Forall_forall. intros row Hrow. apply in_map_iff in Hrow as (r & <- & _).
  rewrite (normalize_row_data_map r (generate_csv_headers_NoDup ml)).
  unfold dict_keys. rewrite map_map. apply map_id.
Qed.

(** X4. For pairwise distinct headers, normalising a normalised record
    again changes nothing, and a header the record has keeps its
    value. *)
Theorem normalize_row_data_idempotent (row_data : dict)
    (headers : list string) :
  NoDup headers ->
  normalize_row_data (normalize_row_data row_data headers) headers
  = normalize_row_data row_data headers
  /\ (forall h v, In h headers -> dict_get h row_data = Some v ->
      dict_get h (normalize_row_data row_data headers) = Some v).
Proof.
  intros Hnd. rewrite !normalize_row_data_map by exact Hnd. split.
  - apply map_ext_in. intros h Hh. unfold header_value at 1.
    rewrite dict_get_map_header.
    destruct (in_dec string_dec h headers); [|contradiction].
    unfold dict_get_default, header_value. reflexivity.
  - intros h v Hh Hv. rewrite dict_get_map_header.
    destruct (in_dec string_dec h headers); [|contradiction].
    unfold dict_get_default. now rewrite Hv.
Qed.

Lemma normalize_row_data_idempotent_witness :
  normalize_row_data
    (normalize_row_data record_one_link ["Date"; "Year"; "Missing"])
    ["Date"; "Year"; "Missing"]
  = normalize_row_data record_one_link ["Date"; "Year"; "Missing"]
  /\ dict_get "Year"
       (normalize_row_data record_one_link ["Date"; "Year"; "Missing"])
     = Some (lit "2020").
Proof.
  assert (Hnd : NoDup ["Date"; "Year"; "Missing"]).
  { repeat constructor; simpl; intuition discriminate. }
  destruct (normalize_row_data_idempotent record_one_link Hnd) as [H1 H2].
  split; [exact H1|]. apply H2; [simpl; auto | reflexivity].
Defined.

(** ** The record of an accepted row *)

(** An accepted row has at least four cells and a readable first cell,
    and its record is built by the three stores over the year and the
    date. *)
Lemma accepted_record (py : Runtime) (row : Row) (year : str) (record : dict) :
  row_record py row year = Some record ->
  exists cells text0,
    row_cells row = Some cells
    /\ 4 <= List.length cells
    /\ cell_text (nth 0 cells no_cell) = Some text0
    /\ record
       = store_notes (fst (notes_texts_urls py cells))
           (snd (notes_texts_urls py cells))
           (store_gazette "Business Gazette"
              (fst (gazette_titles_urls py (nth 2 cells no_cell)))
              (snd (gazette_titles_urls py (nth 2 cells no_cell)))
              (store_gazette "ASIC Gazette"
                 (fst (gazette_titles_urls py (nth 1 cells no_cell)))
                 (snd (gazette_titles_urls py (nth 1 cells no_cell)))
                 [("Year", year); ("Date", clean_text (Some text0))])).
Proof.
  unfold row_record, extract_row_data.
  destruct (row_cells row) as [cells|]; [|discriminate].
  destruct (Nat.ltb_spec (List.length cells) 4) as [|Hlen]; [discriminate|].
  destruct (cell_text (nth 0 cells no_cell)) as [text0|] eqn:E0; [|discriminate].
  destruct (gazette_titles_urls py (nth 1 cells no_cell)) as [t1 u1] eqn:E1.
  destruct (gazette_titles_urls py (nth 2 cells no_cell)) as [t2 u2] eqn:E2.
  destruct (notes_texts_urls py cells) as [texts urls] eqn:E3.
  cbn [fst snd]. intros [= <-]. exists cells, text0.
  rewrite E0, E1, E2, E3. auto.
Qed.

Lemma row_record_rejected (py : Runtime) (row : Row) (year : str) :
  row_record py row year = None <->
  match row_cells row with
  | None => True
  | Some cells =>
      List.length cells < 4 \/ cell_text (nth 0 cells no_cell) = None
  end.
Proof.
  unfold row_record, extract_row_data.
  destruct (row_cells row) as [cells|]; [|tauto].
  destruct (Nat.ltb_spec (List.length cells) 4) as [Hlen|Hlen]; [tauto|].
  destruct (cell_text (nth 0 cells no_cell)) as [text0|].
  - destruct (gazette_titles_urls py (nth 1 cells no_cell)).
    destruct (gazette_titles_urls py (nth 2 cells no_cell)).
    destruct (notes_texts_urls py cells). cbn [fst].
    split; [discriminate | intros [H|H]; [lia | discriminate]].
  - tauto.
Qed.

(** X6. The row parser returns no record exactly when the cell lookup
    raises, the row has fewer than 4 cells, or the text of the first cell
    cannot be read.  The record of an accepted row holds the year label
    under ['Year'] and the cleaned text of the first cell under
    ['Date']. *)
Theorem row_acceptance (py : Runtime) (row : Row) (year : str) :
  (row_record py row year = None <->
   match row_cells row with
   | None => True
   | Some cells =>
       List.length cells < 4 \/ cell_text (nth 0 cells no_cell) = None
   end)
  /\ (forall record,
        row_record py row year = Some record ->
        exists cells text0,
          row_cells row = Some cells
          /\ cell_text (nth 0 cells no_cell) = Some text0
          /\ dict_get "Year" record = Some year
          /\ dict_get "Date" record = Some (clean_text (Some text0))).
Proof.
  split; [apply row_record_rejected|].
  intros record Hrec.
  destruct (accepted_record py row year Hrec)
    as (cells & text0 & Hcells & _ & Htext & ->).
  exists cells, text0. repeat split; try assumption.
  - rewrite store_notes_get_other by discriminate.
    now rewrite !store_gazette_get_other by discriminate.
  - rewrite store_notes_get_other by discriminate.
    now rewrite !store_gazette_get_other by discriminate.
Qed.

Lemma has_key_set_keeps (k k' : string) (v : str) (d : dict) :
  has_key k d = true -> has_key k (dict_set k' v d) = true.
Proof. intros H. rewrite has_key_set, H. apply orb_true_r. Qed.

Lemma fold_left_has_key (A : Type) (f : dict -> A -> dict) (k : string) :
  (forall d a, has_key k d = true -> has_key k (f d a) = true) ->
  forall l d, has_key k d = true -> has_key k (fold_left f l d) = true.
Proof.
  intros Hf l. induction l as [|a l IH]; intros d H; [exact H|].
  simpl. apply IH. now apply Hf.
Qed.

Lemma store_notes_index0 (texts urls : list str) (d : dict) :
  has_key "Other / Notes" (store_notes texts urls d) = true
  /\ has_key "Other / Notes_URL" (store_notes texts urls d) = true.
Proof.
  unfold store_notes. destruct texts as [|text texts]; cbn [truthy_list].
  - rewrite !has_key_set. split; reflexivity.
  - unfold enumerate. cbn [List.length seq combine fold_left Nat.eqb].
    split.
    + apply fold_left_has_key; [intros; now apply has_key_set_keeps|].
      apply fold_left_has_key.
      * intros d' [i t] H.
        destruct (i =? 0)%nat; repeat apply has_key_set_keeps; exact H.
      * now rewrite !has_key_set.
    + apply fold_left_has_key; [intros; now apply has_key_set_keeps|].
      apply fold_left_has_key.
      * intros d' [i t] H.
        destruct (i =? 0)%nat; repeat apply has_key_set_keeps; exact H.
      * now rewrite !has_key_set.
Qed.

(** X7. Whatever the width of the row and the content of its cells, the
    record of an accepted row has the fields ['Year'], ['Date'],
    ['Other / Notes'] and ['Other / Notes_URL']. *)
Theorem accepted_record_fixed_fields (py : Runtime) (row : Row) (year : str)
    (record : dict) :
  row_record py row year = Some record ->
  has_key "Year" record = true
  /\ has_key "Date" record = true
  /\ has_key "Other / Notes" record = true
  /\ has_key "Other / Notes_URL" record = true.
Proof.
  intros Hrec.
  destruct (accepted_record py row year Hrec)
    as (cells & text0 & _ & _ & _ & ->).
  split; [|split]; [| |apply store_notes_index0].
  - unfold has_key. rewrite store_notes_get_other by discriminate.
    now rewrite !store_gazette_get_other by discriminate.
  - unfold has_key. rewrite store_notes_get_other by discriminate.
    now rewrite !store_gazette_get_other by discriminate.
Qed.

Lemma accepted_record_fixed_fields_witness :
  has_key "Year" record_notes_two_links = true
  /\ has_key "Date" record_notes_two_links = true
  /\ has_key "Other / Notes" record_notes_two_links = true
  /\ has_key "Other / Notes_URL" record_notes_two_links = true.
Proof.
  apply (@accepted_record_fixed_fields py0 row_notes_two_links (lit "2020")).
  reflexivity.
Defined.

(** ** The Gazette columns of a record *)

Lemma fold_left_ext (A B : Type) (f g : A -> B -> A) (l : list B) (a : A) :
  (forall a b, f a b = g a b) -> fold_left f l a = fold_left g l a.
Proof.
  intros Hfg. revert a; induction l as [|b l IH]; intros a; [reflexivity|].
  simpl. now rewrite Hfg, IH.
Qed.

Lemma store_gazette_fields (col : Column) (titles urls : list str) (d : dict) :
  col <> Other ->
  store_gazette (column_name col) titles urls d
  = fold_left (store_pair col) (enumerate (combine titles urls)) d.
Proof.
  intros Hcol. unfold store_gazette. apply fold_left_ext.
  intros r [i [title url]]. destruct col; [| |congruence]; now destruct i.
Qed.

Lemma dict_keys_set (k k' : string) (v : str) (d : dict) :
  In k (dict_keys (dict_set k' v d)) -> k = k' \/ In k (dict_keys d).
Proof.
  induction d as [|[k'' v''] d IH]; simpl.
  - intros [<-|[]]. now left.
  - destruct (String.eqb_spec k' k''); simpl.
    + intros [<-|H]; [now left | right; now right].
    + intros [<-|H]; [right; now left|].
      destruct (IH H) as [->|H']; [now left | right; now right].
Qed.

Lemma nth_combine (A B : Type) (l : list A) (l' : list B) (i : nat) (a : A)
    (b : B) :
  i < List.length (combine l l') ->
  nth i (combine l l') (a, b) = (nth i l a, nth i l' b).
Proof.
  revert l' i; induction l as [|x l IH]; intros [|y l'] i; simpl; try lia.
  destruct i as [|i]; [reflexivity|]. intros H. apply IH. lia.
Qed.

Lemma pairs_loop_miss (col : Column) (k : string) (pairs : list (str * str))
    (a : nat) (d : dict) :
  (forall j, a <= j < a + List.length pairs ->
     k <> title_field col j /\ k <> url_field col j) ->
  dict_get k
    (fold_left (store_pair col) (combine (seq a (List.length pairs)) pairs) d)
  = dict_get k d.
Proof.
  revert a d; induction pairs as [|[t u] pairs IH]; intros a d Hk;
    [reflexivity|].
  cbn [List.length seq combine fold_left].
  rewrite IH by (intros j Hj; apply Hk; simpl; lia).
  destruct (Hk a) as [H1 H2]; [simpl; lia|].
  unfold store_pair. now rewrite !dict_get_set_other.
Qed.

Lemma pairs_loop_hit (col : Column) (pairs : list (str * str)) (a i : nat)
    (d : dict) :
  i < List.length pairs ->
  dict_get (title_field col (a + i))
    (fold_left (store_pair col) (combine (seq a (List.length pairs)) pairs) d)
  = Some (fst (nth i pairs ([], [])))
  /\ dict_get (url_field col (a + i))
       (fold_left (store_pair col) (combine (seq a (List.length pairs)) pairs) d)
     = Some (snd (nth i pairs ([], []))).
Proof.
  revert a i d; induction pairs as [|[t u] pairs IH]; intros a i d Hi;
    [simpl in Hi; lia|].
  cbn [List.length seq combine fold_left]. destruct i as [|i].
  - rewrite Nat.add_0_r. cbn [nth fst snd].
    rewrite !pairs_loop_miss.
    + unfold store_pair. split; [|apply dict_get_set_same].
      rewrite dict_get_set_other by apply title_url_distinct.
      apply dict_get_set_same.
    + intros j Hj. split; intros E.
      * symmetry in E. now apply title_url_distinct in E.
      * apply url_field_inj in E as [_ E]. lia.
    + intros j Hj. split; intros E.
      * apply title_field_inj in E as [_ E]. lia.
      * now apply title_url_distinct in E.
  - replace (a + S i) with (S a + i) by lia. cbn [nth].
    apply IH. simpl in Hi. lia.
Qed.

Lemma pairs_loop_keys (col : Column) (k : string) (pairs : list (str * str))
    (a : nat) (d : dict) :
  In k (dict_keys
          (fold_left (store_pair col)
             (combine (seq a (List.length pairs)) pairs) d)) ->
  In k (dict_keys d)
  \/ exists j, a <= j < a + List.length pairs
               /\ (k = title_field col j \/ k = url_field col j).
Proof.
  revert a d; induction pairs as [|[t u] pairs IH]; intros a d; [now left|].
  cbn [List.length seq combine fold_left]. intros H.
  apply IH in H as [H|(j & Hj & H)].
  - unfold store_pair in H. apply dict_keys_set in H as [->|H].
    + right. exists a. split; [lia | now right].
    + apply dict_keys_set in H as [->|H]; [|now left].
      right. exists a. split; [lia | now left].
  - right. exists j. split; [lia | exact H].
Qed.

Lemma initial_gazette_field (col : Column) (i : nat) :
  initial (title_field col i) = initial (column_name col)
  /\ initial (url_field col i) = initial (column_name col).
Proof. destruct col, i; split; reflexivity. Qed.

Lemma base_no_field (k : string) (c : ascii) (year date : str) :
  initial k = Some c -> c <> "Y"%char -> c <> "D"%char ->
  dict_get k [("Year", year); ("Date", date)] = None.
Proof.
  intros Hk HY HD. destruct k as [|c' k]; [discriminate|].
  injection Hk as ->. simpl.
  destruct (Ascii.eqb_spec c "Y"%char); [contradiction|].
  destruct (Ascii.eqb_spec c "D"%char); [contradiction|]. reflexivity.
Qed.

(** Reading a Gazette field of the record of an accepted row is reading
    it after the loop that stores the column, run on a record without
    any field of the column. *)
Lemma record_gazette_loop (py : Runtime) (cells : list Cell) (year date : str)
    (col : Column) :
  col <> Other ->
  exists d0,
    (forall k, initial k = initial (column_name col) ->
       dict_get k
         (store_notes (fst (notes_texts_urls py cells))
            (snd (notes_texts_urls py cells))
            (store_gazette "Business Gazette"
               (fst (gazette_titles_urls py (nth 2 cells no_cell)))
               (snd (gazette_titles_urls py (nth 2 cells no_cell)))
               (store_gazette "ASIC Gazette"
                  (fst (gazette_titles_urls py (nth 1 cells no_cell)))
                  (snd (gazette_titles_urls py (nth 1 cells no_cell)))
                  [("Year", year); ("Date", date)])))
       = dict_get k
           (fold_left (store_pair col)
              (enumerate
                 (combine
                    (fst (gazette_titles_urls py
                            (nth (gazette_cell col) cells no_cell)))
                    (snd (gazette_titles_urls py
                            (nth (gazette_cell col) cells no_cell)))))
              d0))
    /\ (forall k, initial k = initial (column_name col) -> dict_get k d0 = None).
Proof.
  intros Hcol. destruct col; [| |congruence]; cbn [gazette_cell column_name].
  - exists [("Year", year); ("Date", date)]. split; intros k Hk.
    + rewrite store_notes_get_other by (rewrite Hk; discriminate).
      rewrite store_gazette_get_other by (rewrite ?Hk; discriminate).
      now rewrite (store_gazette_fields (col := ASIC)) by discriminate.
    + apply base_no_field with (c := "A"%char);
        [exact Hk | discriminate | discriminate].
  - exists (store_gazette "ASIC Gazette"
              (fst (gazette_titles_urls py (nth 1 cells no_cell)))
              (snd (gazette_titles_urls py (nth 1 cells no_cell)))
              [("Year", year); ("Date", date)]).
    split; intros k Hk.
    + rewrite store_notes_get_other by (rewrite Hk; discriminate).
      now rewrite (store_gazette_fields (col := Business)) by discriminate.
    + rewrite store_gazette_get_other by (rewrite ?Hk; discriminate).
      apply base_no_field with (c := "B"%char);
        [exact Hk | discriminate | discriminate].
Qed.

(** The fields of a Gazette column in the record of an accepted row:
    one (title, URL) pair per position at which the cell has both a
    title and a URL, and nothing beyond. *)
Lemma record_gazette_pairs (py : Runtime) (row : Row) (year : str)
    (record : dict) (cells : list Cell) (col : Column) :
  row_record py row year = Some record ->
  row_cells row = Some cells ->
  col <> Other ->
  let titles :=
    fst (gazette_titles_urls py (nth (gazette_cell col) cells no_cell)) in
  let urls :=
    snd (gazette_titles_urls py (nth (gazette_cell col) cells no_cell)) in
  (forall i, i < List.length (combine titles urls) ->
     dict_get (title_field col i) record = Some (nth i titles [])
     /\ dict_get (url_field col i) record = Some (nth i urls []))
  /\ (forall i, List.length (combine titles urls) <= i ->
      dict_get (title_field col i) record = None
      /\ dict_get (url_field col i) record = None).
Proof.
  intros Hrec Hcells Hcol titles urls.
  destruct (accepted_record py row year Hrec)
    as (cells' & text0 & Hcells' & _ & _ & ->).
  rewrite Hcells in Hcells'. injection Hcells' as <-.
  destruct (record_gazette_loop py cells year (clean_text (Some text0)) Hcol)
    as (d0 & Hget & Hd0).
  fold titles urls in Hget. unfold enumerate in Hget.
  split; intros i Hi.
  - rewrite !Hget by apply initial_gazette_field.
    destruct (@pairs_loop_hit col (combine titles urls) 0 i d0 Hi) as [Ht Hu].
    cbn [Nat.add] in Ht, Hu. rewrite Ht, Hu.
    pose proof (nth_combine titles urls [] [] Hi) as E.
    split; f_equal.
    + transitivity (fst (nth i titles [], nth i urls ([] : str)));
        [f_equal; exact E | reflexivity].
    + transitivity (snd (nth i titles ([] : str), nth i urls []));
        [f_equal; exact E | reflexivity].
  - rewrite !Hget by apply initial_gazette_field.
    rewrite !pairs_loop_miss.
    + split; apply Hd0; apply initial_gazette_field.
    + intros j Hj. split; intros E.
      * symmetry in E. now apply title_url_distinct in E.
      * apply url_field_inj in E as [_ E]. lia.
    + intros j Hj. split; intros E.
      * apply title_field_inj in E as [_ E]. lia.
      * now apply title_url_distinct in E.
Qed.

Lemma complete_titles (links : list Link) :
  Forall complete links ->
  flat_map title_entries links
  = List.map (fun link => clean_text (link_text link)) links.
Proof.
  induction 1 as [|link links (_ & Ht & _) _ IH]; [reflexivity|].
  cbn [flat_map List.map]. rewrite IH. unfold title_entries. now rewrite Ht.
Qed.

Lemma complete_readable (links : list Link) :
  Forall complete links -> Forall readable links.
Proof. apply Forall_impl. now intros link [H _]. Qed.

(** The URLs of complete links when [urljoin] raises on none of them:
    one per link. *)
Lemma complete_resolved_urls (py : Runtime) (links : list Link) :
  Forall complete links ->
  Forall (fun link => resolved_href py link <> None) links ->
  exists urls,
    resolved_urls py links = Some urls
    /\ Forall2 (fun link url => resolved_href py link = Some url) links urls.
Proof.
  induction 1 as [|link links (_ & _ & Hh) _ IH]; intros Hres.
  - exists []. split; [reflexivity | constructor].
  - inversion Hres as [|? ? Hlink Hrest]; subst.
    destruct (IH Hrest) as (urls & Hurls & Hall).
    destruct (resolved_href py link) as [url|] eqn:Eu; [|congruence].
    exists (url :: urls). cbn [resolved_urls]. fold (has_href link) in Hh.
    rewrite Hh, Eu, Hurls. split; [reflexivity | now constructor].
Qed.

Lemma Forall2_nth_error_l (A B : Type) (R : A -> B -> Prop) (l : list A)
    (l' : list B) (i : nat) (a : A) :
  Forall2 R l l' -> nth_error l i = Some a ->
  exists b, nth_error l' i = Some b /\ R a b.
Proof.
  intros Hall. revert i.
  induction Hall as [|x y l l' Hxy _ IH]; intros i; [now destruct i|].
  destruct i as [|i]; simpl; [|apply IH].
  intros [= <-]. now exists y.
Qed.

Lemma gazette_titles_urls_complete (py : Runtime) (cell : Cell)
    (links : list Link) (urls : list str) :
  cell_links cell = Some links -> links <> [] -> Forall complete links ->
  resolved_urls py links = Some urls ->
  gazette_titles_urls py cell
  = (List.map (fun link => clean_text (link_text link)) links, urls).
Proof.
  intros Hlinks Hne Hall Hurls. unfold gazette_titles_urls.
  rewrite (extract_multiple_links_data_entries py cell Hlinks
             (complete_readable Hall)), Hurls.
  rewrite (complete_titles Hall).
  destruct (extract_cell_content py cell) as [text cell_urls].
  destruct links as [|link links]; [congruence | reflexivity].
Qed.

Lemma gazette_titles_urls_no_titles (py : Runtime) (cell : Cell) :
  fst (extract_multiple_links_data py cell) = [] ->
  gazette_titles_urls py cell = ([fst (extract_cell_content py cell)], [[]]).
Proof.
  unfold gazette_titles_urls.
  destruct (extract_cell_content py cell) as [text urls].
  destruct (extract_multiple_links_data py cell) as [titles link_urls].
  cbn [fst]. intros ->. now destruct text.
Qed.

(** X9. In the record of an accepted row, a Gazette cell that has at
    least one link, all of them with a non-empty cleaned text and a
    non-empty [href]: when [urljoin] raises on no [href], every link
    gives, at its index in document order, its cleaned text as title
    field and its resolved [href] as URL field, and the column has no
    field beyond the last link; when [urljoin] raises on the [href] of
    one link, the column has one occurrence with the empty string as
    title and as URL, the links and the text of the cell being lost. *)
Theorem gazette_fields_of_complete_links (py : Runtime) (row : Row)
    (year : str) (record : dict) (cells : list Cell) (col : Column)
    (links : list Link) :
  row_record py row year = Some record ->
  row_cells row = Some cells ->
  col <> Other ->
  cell_links (nth (gazette_cell col) cells no_cell) = Some links ->
  links <> [] ->
  Forall complete links ->
  (Forall (fun link => resolved_href py link <> None) links ->
   (forall i link,
       nth_error links i = Some link ->
       dict_get (title_field col i) record = Some (clean_text (link_text link))
       /\ exists url,
            resolved_href py link = Some url
            /\ dict_get (url_field col i) record = Some url)
   /\ (forall i, List.length links <= i ->
       dict_get (title_field col i) record = None
       /\ dict_get (url_field col i) record = None))
  /\ (Exists (fun link => resolved_href py link = None) links ->
      dict_get (title_field col 0) record = Some []
      /\ dict_get (url_field col 0) record = Some []
      /\ (forall i, 1 <= i ->
          dict_get (title_field col i) record = None
          /\ dict_get (url_field col i) record = None)).
Proof.
  intros Hrec Hcells Hcol Hlinks Hne Hall.
  pose proof (@record_gazette_pairs py row year record cells col Hrec Hcells
                Hcol) as H.
  cbv zeta in H. split.
  - intros Hres.
    destruct (@complete_resolved_urls py links Hall Hres)
      as (urls & Hurls & Hall2).
    rewrite (gazette_titles_urls_complete py _ Hlinks Hne Hall Hurls) in H.
    cbn [fst snd] in H.
    rewrite length_combine, length_map, <- (Forall2_length Hall2), Nat.min_id
      in H.
    destruct H as [Hin Hout]. split; [|exact Hout].
    intros i link Hi.
    assert (Hlt : i < List.length links)
      by (apply nth_error_Some; congruence).
    destruct (Hin i Hlt) as [Ht Hu]. rewrite Ht, Hu. split.
    + f_equal. apply nth_error_nth.
      now rewrite (map_nth_error (fun link => clean_text (link_text link)) _ _ Hi).
    + destruct (Forall2_nth_error_l i Hall2 Hi) as (url & Hnth & Hurl).
      exists url. split; [exact Hurl|]. f_equal. now apply nth_error_nth.
  - intros Hex. apply Exists_exists in Hex as (link & Hin & Hnone).
    assert (Hurls : resolved_urls py links = None).
    { apply resolved_urls_none. exists link. split; [exact Hin|].
      split; [|exact Hnone]. rewrite Forall_forall in Hall.
      now destruct (Hall link Hin) as (_ & _ & Hh). }
    destruct (extractors_unresolved py _ Hlinks (complete_readable Hall) Hurls)
      as [Hcontent Hdata].
    rewrite (gazette_titles_urls_no_titles py _) in H by now rewrite Hdata.
    rewrite Hcontent in H. cbn [fst snd combine List.length] in H.
    destruct H as [Hin' Hout]. destruct (Hin' 0 ltac:(lia)) as [Ht Hu]. auto.
Qed.

Lemma gazette_fields_of_complete_links_witness :
  (dict_get "ASIC Gazette_2" record_three_links = Some (lit "A04/20")
   /\ dict_get "ASIC Gazette_Url_2" record_three_links
      = Some (lit "https://asic.gov.au/media/a04-20.pdf")
   /\ dict_get "ASIC Gazette_3" record_three_links = None)
  /\ (dict_get "ASIC Gazette_title" record_malformed_href = Some []
      /\ dict_get "ASIC Gazette_Url" record_malformed_href = Some []
      /\ dict_get "ASIC Gazette_1" record_malformed_href = None).
Proof.
  split.
  - assert (Hall : Forall complete
                     [a_link "A02/20" (Some "/media/a02-20.pdf");
                      a_link "A03/20" (Some "/media/a03-20.pdf");
                      a_link "A04/20" (Some "/media/a04-20.pdf")]).
    { repeat constructor; discriminate. }
    destruct (@gazette_fields_of_complete_links py0 row_three_links (lit "2020")
                record_three_links
                [a_cell "10 January 2020" [];
                 a_cell "A02/20 A03/20 A04/20"
                   [a_link "A02/20" (Some "/media/a02-20.pdf");
                    a_link "A03/20" (Some "/media/a03-20.pdf");
                    a_link "A04/20" (Some "/media/a04-20.pdf")];
                 a_cell "B01/20"
                   [a_link "B01/20" (Some "https://asic.gov.au/b01.pdf")];
                 a_cell "" []]
                ASIC _ eq_refl eq_refl ltac:(discriminate) eq_refl
                ltac:(discriminate) Hall) as [Hresolved _].
    destruct Hresolved as [Hin Hout]; [repeat constructor; discriminate|].
    destruct (Hin 2 (a_link "A04/20" (Some "/media/a04-20.pdf")) eq_refl)
      as (Ht & url & Hurl & Hu).
    split; [exact Ht|]. split.
    + vm_compute in Hurl. injection Hurl as <-. exact Hu.
    + apply (proj1 (Hout 3 ltac:(simpl; lia))).
  - assert (Hall : Forall complete
                     [a_link "A13/20" (Some "/media/a13-20.pdf");
                      a_link "A14/20" (Some "//[")]).
    { repeat constructor; discriminate. }
    destruct (@gazette_fields_of_complete_links py_strict row_malformed_href
                (lit "2020") record_malformed_href
                [a_cell "28 February 2020" [];
                 a_cell "A13/20 A14/20"
                   [a_link "A13/20" (Some "/media/a13-20.pdf");
                    a_link "A14/20" (Some "//[")];
                 a_cell "" [];
                 a_cell "" []]
                ASIC _ eq_refl eq_refl ltac:(discriminate) eq_refl
                ltac:(discriminate) Hall) as [_ Hraises].
    destruct Hraises as (Ht & Hu & Hmore).
    { apply Exists_cons_tl, Exists_cons_hd. reflexivity. }
    split; [exact Ht|]. split; [exact Hu|]. apply (proj1 (Hmore 1 (le_n 1))).
Defined.



(** ** The Other / Notes column of a row of five cells or more *)






(** ** No field of a record is lost by the normalisation *)

(** The header names of a Schema State. *)
Lemma in_generate_csv_headers (ml : MaxLinks) (k : string) :
  In k (generate_csv_headers ml) <->
  k = "Year" \/ k = "Date"
  \/ exists col i, (i = 0 \/ i < ml_get col ml)
                   /\ (k = title_field col i \/ k = url_field col i).
Proof.
  split.
  - rewrite generate_csv_headers_flat. unfold final_headers_spec.
    rewrite in_app_iff, in_flat_map.
    intros [[<-|[<-|[]]]|(col & _ & H)]; auto.
    right; right. rewrite column_block_pairs in H.
    apply in_field_pairs in H as (i & Hi & H). exists col, i. split; [|exact H].
    destruct Hi as [<-|Hi]; [now left|]. apply in_seq in Hi. right. lia.
  - intros [->|[->|(col & i & Hi & H)]].
    + rewrite generate_csv_headers_flat. now left.
    + rewrite generate_csv_headers_flat. right. now left.
    + apply (@column_block_headers col).
      destruct (@in_column_block col (ml_get col ml) i Hi) as [Ht Hu].
      now destruct H as [-> | ->].
Qed.

Lemma covers_grows (a b : MaxLinks) (record : dict) :
  ml_le a b -> covers a record -> covers b record.
Proof.
  intros Hle Hc k Hk. apply Hc in Hk. apply in_generate_csv_headers in Hk.
  apply in_generate_csv_headers.
  destruct Hk as [->|[->|(col & i & Hi & H)]]; auto.
  right; right. exists col, i. split; [|exact H].
  specialize (Hle col). lia.
Qed.

Lemma fold_left_keys (A : Type) (f : dict -> A -> dict) (P : string -> Prop)
    (k : string) (l : list A) (d : dict) :
  (forall d a, In a l -> In k (dict_keys (f d a)) -> In k (dict_keys d) \/ P k) ->
  In k (dict_keys (fold_left f l d)) -> In k (dict_keys d) \/ P k.
Proof.
  revert d; induction l as [|a l IH]; intros d Hf H; [now left|].
  simpl in H. apply IH in H.
  - destruct H as [H|H]; [|now right]. apply (Hf d a); [now left | exact H].
  - intros d' a' Ha'. apply Hf. now right.
Qed.

Lemma in_enumerate_lt (A : Type) (l : list A) (i : nat) (x : A) :
  In (i, x) (enumerate l) -> i < List.length l.
Proof.
  intros H. apply in_enumerate in H. apply nth_error_Some. congruence.
Qed.

(** The field names the store of the Other / Notes column writes. *)
Lemma store_notes_keys (texts urls : list str) (d : dict) (k : string) :
  In k (dict_keys (store_notes texts urls d)) ->
  In k (dict_keys d)
  \/ exists i,
       (i = 0 \/ i < Nat.max (List.length texts) (List.length urls))
       /\ (k = title_field Other i \/ k = url_field Other i).
Proof.
  unfold store_notes. destruct texts as [|text texts]; cbn [truthy_list].
  - intros H. apply dict_keys_set in H as [->|H].
    + right. exists 0. split; [now left | now right].
    + apply dict_keys_set in H as [->|H]; [|now left].
      right. exists 0. split; [now left | now left].
  - intros H. apply fold_left_keys
      with (P := fun k => exists i,
                   (i = 0 \/ i < Nat.max (List.length (text :: texts))
                                   (List.length urls))
                   /\ (k = title_field Other i \/ k = url_field Other i))
      in H.
    + destruct H as [H|H]; [|now right].
      apply fold_left_keys
        with (P := fun k => exists i,
                     (i = 0 \/ i < Nat.max (List.length (text :: texts))
                                     (List.length urls))
                     /\ (k = title_field Other i \/ k = url_field Other i))
        in H; [exact H|].
      intros d' [i t] Hin Hk. apply in_enumerate_lt in Hin.
      destruct i as [|i]; cbn [Nat.eqb] in Hk.
      * apply dict_keys_set in Hk as [->|Hk];
          [right; exists 0; split; [now left | now right]|].
        apply dict_keys_set in Hk as [->|Hk]; [|now left].
        right. exists 0. split; [now left | now left].
      * apply dict_keys_set in Hk as [->|Hk];
          [right; exists (S i); split; [right; lia | now right]|].
        apply dict_keys_set in Hk as [->|Hk]; [|now left].
        right. exists (S i). split; [right; lia | now left].
    + intros d' i Hin Hk. apply in_seq in Hin. simpl List.length in Hin.
      apply dict_keys_set in Hk as [->|Hk]; [|now left].
      right. exists i. split; [right; simpl List.length; lia|].
      right. apply notes_url_key. lia.
Qed.

(** The field names the store of a Gazette column writes. *)
Lemma store_gazette_keys (col : Column) (titles urls : list str) (d : dict)
    (k : string) :
  col <> Other ->
  In k (dict_keys (store_gazette (column_name col) titles urls d)) ->
  In k (dict_keys d)
  \/ exists i, i < List.length titles
               /\ (k = title_field col i \/ k = url_field col i).
Proof.
  intros Hcol. rewrite store_gazette_fields by exact Hcol. unfold enumerate.
  intros H. apply pairs_loop_keys in H as [H|(j & Hj & H)]; [now left|].
  right. exists j. split; [|exact H].
  rewrite length_combine in Hj. lia.
Qed.

Lemma row_counts_accepted (py : Runtime) (row : Row) (year : str)
    (record : dict) (cells : list Cell) :
  row_record py row year = Some record ->
  row_cells row = Some cells ->
  row_counts py row
  = {| ml_asic :=
         List.length (fst (gazette_titles_urls py (nth 1 cells no_cell)));
       ml_business :=
         List.length (fst (gazette_titles_urls py (nth 2 cells no_cell)));
       ml_other :=
         Nat.max (List.length (fst (notes_texts_urls py cells)))
           (List.length (snd (notes_texts_urls py cells))) |}.
Proof.
  intros Hrec Hcells.
  destruct (accepted_record py row year Hrec)
    as (cells' & text0 & Hcells' & Hlen & Htext & _).
  rewrite Hcells in Hcells'. injection Hcells' as <-.
  unfold row_counts. rewrite Hcells, Htext.
  destruct (Nat.ltb_spec (List.length cells) 4); [lia | reflexivity].
Qed.

(** Every field of the record of a row is a header of the counts of the
    row. *)
Lemma row_record_covered (py : Runtime) (row : Row) (year : str)
    (record : dict) :
  row_record py row year = Some record -> covers (row_counts py row) record.
Proof.
  intros Hrec k Hk.
  destruct (accepted_record py row year Hrec)
    as (cells & text0 & Hcells & _ & _ & E).
  rewrite (row_counts_accepted py row year Hrec Hcells).
  apply in_generate_csv_headers. subst record.
  apply store_notes_keys in Hk as [Hk|(i & Hi & Hk)].
  - destruct (@store_gazette_keys Business _ _ _ k ltac:(discriminate) Hk)
      as [Hk'|(i & Hi & Hk')]; clear Hk; rename Hk' into Hk.
    + destruct (@store_gazette_keys ASIC _ _ _ k ltac:(discriminate) Hk)
        as [Hk'|(i & Hi & Hk')]; clear Hk; rename Hk' into Hk.
      * destruct Hk as [<-|[<-|[]]]; auto.
      * right; right. exists ASIC, i. split; [now right | exact Hk].
    + right; right. exists Business, i. split; [now right | exact Hk].
  - right; right. exists Other, i. split; [exact Hi | exact Hk].
Qed.

Lemma ml_le_max_r (a b : MaxLinks) : ml_le b (ml_max a b).
Proof. intros []; simpl; lia. Qed.

Lemma fold_ml_max_elem (counts : list MaxLinks) (c ml : MaxLinks) :
  In c counts -> ml_le c (fold_left ml_max counts ml).
Proof.
  revert ml; induction counts as [|c' counts IH]; intros ml; [intros []|].
  intros [->|H]; simpl.
  - eapply ml_le_trans; [apply ml_le_max_r | apply fold_ml_max_le].
  - now apply IH.
Qed.

Lemma extract_table_data_covered (py : Runtime) (table : Table) (year : str)
    (ml : MaxLinks) (record : dict) :
  In record (fst (extract_table_data py table year ml)) ->
  covers (snd (extract_table_data py table year ml)) record.
Proof.
  assert (Hrows : forall rows,
            In record (fst (extract_rows py rows year ml)) ->
            covers (snd (extract_rows py rows year ml)) record).
  { intros rows. rewrite extract_rows_split. cbn [fst snd].
    rewrite in_flat_map. intros (row & Hrow & Hrec). unfold row_records in Hrec.
    destruct (row_record py row year) as [[|field fields]|] eqn:E;
      try contradiction.
    destruct Hrec as [<-|[]].
    apply (covers_grows (a := row_counts py row)).
    - apply fold_ml_max_elem. now apply in_map.
    - now apply (row_record_covered py row year). }
  rewrite extract_table_data_rows.
  destruct (parsed_rows table); [apply Hrows | intros []].
Qed.

(** One more table keeps the accumulated records covered. *)
Lemma covered_step (py : Runtime) (table : Table) (year : str) (self : Scraper) :
  Forall (covers (max_links self)) (all_data self) ->
  Forall (covers (snd (extract_table_data py table year (max_links self))))
    (all_data self ++ fst (extract_table_data py table year (max_links self))).
Proof.
  intros Hall. apply Forall_app. split.
  - revert Hall. apply Forall_impl. intros record.
    apply covers_grows, extract_table_data_grows.
  - apply Forall_forall. intros record. apply extract_table_data_covered.
Qed.

Lemma process_tables_covered (py : Runtime) (tables : list Table)
    (self : Scraper) :
  Forall (covers (max_links self)) (all_data self) ->
  Forall (covers (max_links (process_tables py tables self)))
    (all_data (process_tables py tables self)).
Proof.
  unfold process_tables. generalize (enumerate (firstn 3 tables)) as l.
  intros l; revert self; induction l as [|[i table] l IH]; intros self Hall;
    [exact Hall|].
  cbn [fold_left]. apply IH.
  pose proof (covered_step py table
                (lit ("Table_" ++ string_of_nat i)%string) self Hall) as H.
  destruct (extract_table_data py table _ (max_links self)). exact H.
Qed.

Lemma process_year_elements_covered (py : Runtime) (elems : list Element)
    (self : Scraper) :
  Forall (covers (max_links self)) (all_data self) ->
  Forall (covers (max_links (process_year_elements py elems self)))
    (all_data (process_year_elements py elems self)).
Proof.
  unfold process_year_elements.
  revert self; induction elems as [|elem elems IH]; intros self Hall;
    [exact Hall|].
  cbn [fold_left]. apply IH. unfold extract_year_data.
  destruct (find_table elem) as [table|].
  - pose proof (covered_step py table
                  (year_label (clean_text (Some (elem_text elem)))) self Hall)
      as H.
    destruct (extract_table_data py table _ (max_links self)). exact H.
  - cbn [all_data max_links]. now rewrite app_nil_r.
Qed.

(** X5. Every field of every record that a run of [scrape_data] started
    from a fresh scraper returns is a header of the final Schema State:
    normalising the record against the generated headers keeps each of
    its values. *)
Theorem normalisation_keeps_every_field (py : Runtime) (page : Page)
    (records : list dict) (self' : Scraper) :
  scrape_data py page scraper_init = (Some records, self') ->
  forall record k v,
    In record records ->
    dict_get k record = Some v ->
    In k (generate_csv_headers (max_links self'))
    /\ dict_get k
         (normalize_row_data record (generate_csv_headers (max_links self')))
       = Some v.
Proof.
  intros Hrun record k v Hin Hget.
  assert (Hcov : Forall (covers (max_links self')) records).
  { unfold scrape_data in Hrun.
    destruct (find_year_elements py page) as [elems|]; [|discriminate].
    destruct (negb (truthy_list elems)).
    - destruct (truthy_list (page_tables page)); injection Hrun as <- <-.
      + apply process_tables_covered. constructor.
      + constructor.
    - injection Hrun as <- <-. apply process_year_elements_covered. constructor. }
  rewrite Forall_forall in Hcov.
  assert (Hk : In k (generate_csv_headers (max_links self'))).
  { apply (Hcov record Hin).
    destruct (in_dec string_dec k (dict_keys record)) as [H|H]; [exact H|].
    apply dict_get_keys in H. congruence. }
  split; [exact Hk|].
  rewrite normalize_row_data_map by apply generate_csv_headers_NoDup.
  rewrite dict_get_map_header.
  destruct (in_dec string_dec k (generate_csv_headers (max_links self')));
    [|contradiction].
  unfold dict_get_default. now rewrite Hget.
Qed.

Lemma normalisation_keeps_every_field_witness :
  dict_get "ASIC Gazette_Url_2"
    (normalize_row_data record_table_1
       (generate_csv_headers
          (max_links (snd (scrape_data py0 page_two_tables scraper_init)))))
  = Some (lit "https://asic.gov.au/media/a04-20.pdf").
Proof.
  destruct (scrape_data py0 page_two_tables scraper_init)
    as [[records|] self'] eqn:Hrun; [|vm_compute in Hrun; discriminate].
  cbn [snd].
  apply (@normalisation_keeps_every_field py0 page_two_tables records self'
           Hrun record_table_1 "ASIC Gazette_Url_2"
           (lit "https://asic.gov.au/media/a04-20.pdf")).
  - pose proof Hrun as Hc. vm_compute in Hc. injection Hc as <- _.
    vm_compute. right. left. reflexivity.
  - vm_compute. reflexivity.
Defined.

(** ** The cell extractors on cells that cannot be read *)

Lemma for_each_raises (A S : Type) (body : S -> A -> Exc S) (l : list A)
    (a : A) (s : S) :
  In a l -> (forall s, body s a = None) -> for_each body l s = None.
Proof.
  intros Hin Hraise. revert s; induction l as [|b l IH]; intros s;
    [contradiction|].
  simpl. destruct Hin as [->|Hin]; [now rewrite Hraise|].
  destruct (body s b); [now apply IH | reflexivity].
Qed.

(** X11. When a read raises, the cell extractors give up the whole cell:
    [_extract_multiple_links_data] returns no title and no URL as soon as
    the link lookup or the text or [href] of one link cannot be read, and
    [_extract_cell_content] returns the empty text and no URL as soon as
    the cell text, the link lookup or the [href] of one link cannot be
    read, whatever the other links hold. *)
Theorem extractors_give_up_on_failed_read (py : Runtime) (cell : Cell) :
  (match cell_links cell with
   | None => True
   | Some links =>
       exists link, In link links
                    /\ (link_text link = None \/ link_href link = None)
   end ->
   extract_multiple_links_data py cell = ([], []))
  /\ (cell_text cell = None
      \/ match cell_links cell with
         | None => True
         | Some links => exists link, In link links /\ link_href link = None
         end ->
      extract_cell_content py cell = ([], [])).
Proof.
  split.
  - unfold extract_multiple_links_data.
    destruct (cell_links cell) as [links|]; [|reflexivity].
    intros (link & Hin & Hraise).
    destruct links as [|l0 links]; [contradiction|].
    rewrite (for_each_raises _ (l0 :: links) link); [reflexivity | exact Hin|].
    intros [titles urls]. destruct Hraise as [-> | Hh]; [reflexivity|].
    rewrite Hh. now destruct (link_text link).
  - unfold extract_cell_content.
    destruct (cell_text cell) as [text|]; [|reflexivity].
    destruct (cell_links cell) as [links|]; [|reflexivity].
    intros [H|(link & Hin & Hraise)]; [discriminate|].
    rewrite (for_each_raises _ links link); [reflexivity | exact Hin|].
    intros urls. now rewrite Hraise.
Qed.

Lemma extractors_give_up_on_failed_read_witness :
  extract_multiple_links_data py0 cell_detached_link = ([], [])
  /\ extract_cell_content py0 cell_detached_link = ([], []).
Proof.
  destruct (extractors_give_up_on_failed_read py0 cell_detached_link)
    as [H1 H2].
  split.
  - apply H1. simpl. eexists. split; [right; left; reflexivity | now right].
  - apply H2. right. simpl. eexists. split; [right; left; reflexivity|].
    reflexivity.
Defined.

(** X16. On a cell whose text and links can all be read, when
    [urljoin] raises on no [href], [_extract_cell_content] returns the
    cleaned text of the cell and the resolved [href] of every link whose
    [href] is present and not empty, in document order, and
    [_extract_multiple_links_data] returns the titles that are not empty
    and the same URLs; when [urljoin] raises on the [href] of one link,
    both give up the cell and return their empty results.  Either way
    the two extractors return the same URLs. *)
Theorem extract_cell_content_readable (py : Runtime) (cell : Cell) (text : str)
    (links : list Link) :
  cell_text cell = Some text ->
  cell_links cell = Some links ->
  Forall readable links ->
  (forall urls,
      Forall2 (fun link url => resolved_href py link = Some url)
        (filter has_href links) urls ->
      extract_cell_content py cell = (clean_text (Some text), urls)
      /\ extract_multiple_links_data py cell
         = (flat_map title_entries links, urls))
  /\ (forall link,
        In link links -> has_href link = true ->
        resolved_href py link = None ->
        extract_cell_content py cell = ([], [])
        /\ extract_multiple_links_data py cell = ([], []))
  /\ snd (extract_cell_content py cell)
     = snd (extract_multiple_links_data py cell).
Proof.
  intros Htext Hlinks Hall.
  rewrite (extract_cell_content_entries py cell Htext Hlinks Hall).
  rewrite (extract_multiple_links_data_entries py cell Hlinks Hall).
  split; [|split].
  - intros urls Hurls. apply resolved_urls_some in Hurls. now rewrite Hurls.
  - intros link Hin Hh Hnone.
    assert (Hurls : resolved_urls py links = None)
      by (apply resolved_urls_none; now exists link).
    now rewrite Hurls.
  - now destruct (resolved_urls py links).
Qed.

Lemma extract_cell_content_readable_witness :
  extract_cell_content py0 cell_two_links
  = (lit "A02/20 A03/20",
     [lit "https://asic.gov.au/media/a02-20.pdf";
      lit "https://asic.gov.au/a03-20.pdf"])
  /\ extract_cell_content py_strict cell_malformed_href = ([], []).
Proof.
  split.
  - apply (proj1 (@extract_cell_content_readable py0 cell_two_links
                    (lit "A02/20 A03/20")
                    [a_link "A02/20" (Some "/media/a02-20.pdf");
                     a_link "  A03/20 " (Some " https://asic.gov.au/a03-20.pdf ")]
                    eq_refl eq_refl
                    ltac:(repeat constructor; discriminate))).
    repeat constructor.
  - apply (proj1 (proj2 (@extract_cell_content_readable py_strict
                           cell_malformed_href (lit "A13/20 A14/20")
                           [a_link "A13/20" (Some "/media/a13-20.pdf");
                            a_link "A14/20" (Some "//[")]
                           eq_refl eq_refl
                           ltac:(repeat constructor; discriminate)))
             (a_link "A14/20" (Some "//[")));
      [right; left; reflexivity | reflexivity | reflexivity].
Defined.

(** ** The table of an anchor *)

Lemma first_sibling_table_some (siblings : list Sibling) (table : Table) :
  first_sibling_table siblings = Some table
  <-> first_sibling_is siblings table.
Proof.
  unfold first_sibling_is. induction siblings as [|[t|] siblings IH]; simpl.
  - split; [discriminate|]. intros (before & after & H & _).
    now destruct before.
  - split.
    + intros [= ->]. exists [], siblings. split; [reflexivity | constructor].
    + intros (before & after & H & Hall). destruct before as [|s before].
      * now injection H as ->.
      * injection H as <- _. inversion Hall; subst. discriminate.
  - rewrite IH. split.
    + intros (before & after & -> & Hall).
      exists (SiblingOther :: before), after. split; [reflexivity|].
      now constructor.
    + intros (before & after & H & Hall). destruct before as [|s before];
        [discriminate|].
      injection H as _ ->. inversion Hall; subst. now exists before, after.
Qed.

Lemma first_sibling_table_none (siblings : list Sibling) :
  first_sibling_table siblings = None
  <-> Forall (fun sibling => sibling = SiblingOther) siblings.
Proof.
  induction siblings as [|[t|] siblings IH]; simpl.
  - split; [constructor | reflexivity].
  - split; [discriminate|]. inversion 1; subst. discriminate.
  - rewrite IH. split; [now constructor | now inversion 1].
Qed.

(** One content selector: the table of its first match when the match
    is displayed and holds a table. *)
Lemma area_table_cases (elem : Element) (selector : string) :
  (exists area table,
      elem_content_area elem selector = Some area
      /\ area_displayed area = true /\ area_table area = Some table)
  \/ no_area_table elem selector.
Proof.
  unfold no_area_table.
  destruct (elem_content_area elem selector) as [area|]; [|now right].
  destruct (area_displayed area) eqn:Ed; [|right; now left].
  destruct (area_table area) as [table|] eqn:Et; [|right; now right].
  left. now exists area, table.
Qed.

Lemma first_content_table_skip (elem : Element) (selector : string)
    (selectors : list string) :
  no_area_table elem selector ->
  first_content_table elem (selector :: selectors)
  = first_content_table elem selectors.
Proof.
  unfold no_area_table. simpl.
  destruct (elem_content_area elem selector) as [area|]; [|reflexivity].
  intros [-> | ->]; [reflexivity|]. now destruct (area_displayed area).
Qed.

Lemma first_content_table_hit (elem : Element) (selector : string)
    (selectors : list string) (area : ContentArea) (table : Table) :
  elem_content_area elem selector = Some area ->
  area_displayed area = true -> area_table area = Some table ->
  first_content_table elem (selector :: selectors) = Some table.
Proof. intros Ha Hd Ht. simpl. now rewrite Ha, Hd, Ht. Qed.

Lemma no_area_table_hit (elem : Element) (selector : string)
    (area : ContentArea) (table : Table) :
  elem_content_area elem selector = Some area ->
  area_displayed area = true -> area_table area = Some table ->
  no_area_table elem selector -> False.
Proof.
  unfold no_area_table. intros -> Hd Ht [H|H]; congruence.
Qed.

Lemma first_content_table_some (elem : Element) (selectors : list string)
    (table : Table) :
  first_content_table elem selectors = Some table
  <-> first_area_table_is elem selectors table.
Proof.
  unfold first_area_table_is.
  induction selectors as [|selector selectors IH].
  - simpl. split; [discriminate|].
    intros (before & s & after & area & H & _). now destruct before.
  - destruct (area_table_cases elem selector)
      as [(area & t & Ha & Hd & Ht) | Hskip].
    + rewrite (@first_content_table_hit elem selector selectors area t Ha Hd Ht). split.
      * intros [= ->]. exists [], selector, selectors, area.
        split; [reflexivity|]. split; [constructor | auto].
      * intros (before & s & after & area' & H & Hall & Ha' & Hd' & Ht').
        destruct before as [|s' before].
        -- injection H as -> _. congruence.
        -- injection H as -> _. inversion Hall as [|? ? Hno Hrest]; subst.
           now destruct (@no_area_table_hit elem _ area t Ha Hd Ht Hno).
    + rewrite (@first_content_table_skip elem selector selectors Hskip), IH. split.
      * intros (before & s & after & area & -> & Hall & H).
        exists (selector :: before), s, after, area.
        split; [reflexivity|]. split; [now constructor | exact H].
      * intros (before & s & after & area & H & Hall & Ha & Hd & Ht).
        destruct before as [|s' before].
        -- injection H as -> _.
           now destruct (@no_area_table_hit elem _ area table Ha Hd Ht Hskip).
        -- injection H as _ ->. inversion Hall; subst.
           now exists before, s, after, area.
Qed.

Lemma first_content_table_none (elem : Element) (selectors : list string) :
  first_content_table elem selectors = None
  <-> Forall (no_area_table elem) selectors.
Proof.
  induction selectors as [|selector selectors IH].
  - simpl. split; [constructor | reflexivity].
  - destruct (area_table_cases elem selector)
      as [(area & t & Ha & Hd & Ht) | Hskip].
    + rewrite (@first_content_table_hit elem selector selectors area t Ha Hd Ht).
      split; [discriminate|]. intros Hall.
      inversion Hall as [|? ? Hno Hrest]; subst.
      now destruct (@no_area_table_hit elem _ area t Ha Hd Ht Hno).
    + rewrite (@first_content_table_skip elem selector selectors Hskip), IH.
      split; [now constructor | now inversion 1].
Qed.

Lemma first_displayed_table_some (tables : list Table) (table : Table) :
  first_displayed_table tables = Some table
  <-> first_displayed_is tables table.
Proof.
  unfold first_displayed_is. induction tables as [|t tables IH]; simpl.
  - split; [discriminate|]. intros (before & after & H & _).
    now destruct before.
  - destruct (table_displayed t) as [[|]|] eqn:Ed.
    + split.
      * intros [= ->]. exists [], tables.
        split; [reflexivity|]. split; [constructor | exact Ed].
      * intros (before & after & H & Hall & Hd).
        destruct before as [|t' before].
        -- now injection H as ->.
        -- injection H as -> _. inversion Hall; subst. congruence.
    + rewrite IH. split.
      * intros (before & after & -> & Hall & Hd).
        exists (t :: before), after. split; [reflexivity|].
        split; [now constructor | exact Hd].
      * intros (before & after & H & Hall & Hd).
        destruct before as [|t' before].
        -- injection H as -> _. congruence.
        -- injection H as _ ->. inversion Hall; subst.
           now exists before, after.
    + split; [discriminate|]. intros (before & after & H & Hall & Hd).
      destruct before as [|t' before].
      * injection H as -> _. congruence.
      * injection H as -> _. inversion Hall; subst. congruence.
Qed.

Lemma first_displayed_table_none (tables : list Table) :
  first_displayed_table tables = None <-> none_displayed tables.
Proof.
  unfold none_displayed. induction tables as [|t tables IH]; simpl.
  - split; [|reflexivity]. intros _. exists [], [].
    split; [reflexivity|]. split; [constructor | exact I].
  - destruct (table_displayed t) as [[|]|] eqn:Ed.
    + split; [discriminate|]. intros (before & after & H & Hall & Hend).
      destruct before as [|t' before].
      * simpl in H. subst after. congruence.
      * injection H as -> _. inversion Hall; subst. congruence.
    + rewrite IH. split.
      * intros (before & after & -> & Hall & Hend).
        exists (t :: before), after. split; [reflexivity|].
        split; [now constructor | exact Hend].
      * intros (before & after & H & Hall & Hend).
        destruct before as [|t' before].
        -- simpl in H. subst after. congruence.
        -- injection H as _ ->. inversion Hall; subst.
           now exists before, after.
    + split; [|reflexivity]. intros _. exists [], (t :: tables).
      split; [reflexivity|]. split; [constructor | exact Ed].
Qed.

(** X12. The table [_extract_year_data] parses for an anchor is found
    by four strategies tried in order, each only when the ones before
    it found nothing: the first table under the parent of the anchor;
    the first table among its next five siblings; the table of the first
    content selector whose match is displayed and holds a table; the
    first displayed table of the page.  When all four find nothing, and
    only then, no table is found: the anchor gives no record and leaves
    the Schema State as it is.  Otherwise the anchor gives what the table
    parser gives for the table found. *)
Theorem find_table_cascade (py : Runtime) (elem : Element) :
  (forall table,
      find_table elem = Some table
      <-> elem_parent_table elem = Some table
          \/ (elem_parent_table elem = None
              /\ sibling_table elem table)
          \/ (elem_parent_table elem = None
              /\ no_sibling_table elem
              /\ content_table elem table)
          \/ (elem_parent_table elem = None
              /\ no_sibling_table elem
              /\ no_content_table elem
              /\ page_table elem table))
  /\ (find_table elem = None
      <-> elem_parent_table elem = None
          /\ no_sibling_table elem
          /\ no_content_table elem
          /\ no_page_table elem)
  /\ (forall table,
        Forall (fun table' => table_displayed table' <> None)
          (elem_tables elem) ->
        In table (elem_tables elem) ->
        table_displayed table = Some true -> find_table elem <> None)
  /\ (forall year ml, find_table elem = None ->
        extract_year_data py elem year ml = ([], ml))
  /\ (forall table year ml, find_table elem = Some table ->
        extract_year_data py elem year ml
        = extract_table_data py table year ml).
Proof.
  assert (Hsome : forall table,
            find_table elem = Some table
            <-> elem_parent_table elem = Some table
                \/ (elem_parent_table elem = None
                    /\ sibling_table elem table)
                \/ (elem_parent_table elem = None
                    /\ no_sibling_table elem
                    /\ content_table elem table)
                \/ (elem_parent_table elem = None
                    /\ no_sibling_table elem
                    /\ no_content_table elem
                    /\ page_table elem table)).
  { intros table.
    unfold find_table, sibling_table, no_sibling_table, content_table,
      no_content_table, page_table.
    rewrite <- first_sibling_table_some, <- first_sibling_table_none,
      <- first_content_table_some, <- first_content_table_none,
      <- first_displayed_table_some.
    destruct (elem_parent_table elem) as [t|].
    { split; [now left|]. intros [H|[[H _]|[[H _]|[H _]]]];
        [exact H | discriminate..]. }
    destruct (first_sibling_table (firstn 5 (elem_next_siblings elem)))
      as [t|].
    { split; [right; left; now split|].
      intros [H|[[_ H]|[(_ & H & _)|(_ & H & _)]]];
        [discriminate | exact H | discriminate..]. }
    destruct (first_content_table elem content_selectors) as [t|].
    { split; [right; right; left; now repeat split|].
      intros [H|[[_ H]|[(_ & _ & H)|(_ & _ & H & _)]]];
        [discriminate | discriminate | exact H | discriminate]. }
    split; [right; right; right; now repeat split|].
    intros [H|[[_ H]|[(_ & _ & H)|(_ & _ & _ & H)]]];
      [discriminate | discriminate | discriminate | exact H]. }
  assert (Hnone : find_table elem = None
                  <-> elem_parent_table elem = None
                      /\ no_sibling_table elem
                      /\ no_content_table elem
                      /\ no_page_table elem).
  { unfold find_table, no_sibling_table, no_content_table, no_page_table.
    rewrite <- first_sibling_table_none, <- first_content_table_none,
      <- first_displayed_table_none.
    destruct (elem_parent_table elem) as [t|];
      [split; [discriminate | now intros [H _]]|].
    destruct (first_sibling_table (firstn 5 (elem_next_siblings elem)))
      as [t|]; [split; [discriminate | now intros (_ & H & _)]|].
    destruct (first_content_table elem content_selectors) as [t|];
      [split; [discriminate | now intros (_ & _ & H & _)]|].
    split; [now repeat split | now intros (_ & _ & _ & H)]. }
  split; [exact Hsome|]. split; [exact Hnone|]. repeat split.
  - intros table Hread Hin Hd Hfind.
    apply Hnone in Hfind as (_ & _ & _ & before & after & Htables & Hall & Hend).
    rewrite Forall_forall in Hread, Hall. rewrite Htables in Hread, Hin.
    destruct after as [|t after].
    + rewrite app_nil_r in Hin. apply Hall in Hin. congruence.
    + apply (Hread t); [apply in_elt | exact Hend].
  - intros year ml H. unfold extract_year_data. now rewrite H.
  - intros table year ml H. unfold extract_year_data. now rewrite H.
Qed.

Lemma find_table_cascade_witness :
  find_table anchor_2019 = Some (a_table true [row_three_links])
  /\ page_table anchor_2019 (a_table true [row_one_link]).
Proof.
  split.
  - apply (proj1 (find_table_cascade py0 anchor_2019)). right; left.
    split; [reflexivity|]. exists [SiblingOther], [].
    split; [reflexivity | repeat constructor].
  - exists [], []. split; [reflexivity|]. split; [constructor | reflexivity].
Defined.

(** ** The discovery of the year anchors *)





Lemma int_of_digits_raises (py : Runtime) (text : str) (c : char) (v : N) :
  In c text -> char_digit py c = Some (false, v) ->
  int_of_digits py text = None.
Proof.
  unfold int_of_digits. generalize (Some 0%N) as acc.
  induction text as [|d text IH]; intros acc Hin Hc; [contradiction|].
  simpl. destruct Hin as [->|Hin].
  - rewrite Hc.
    assert (Hnone : forall l,
              fold_left
                (fun acc c =>
                   n <- acc ;;
                   match char_digit py c with
                   | Some (true, v) => Some (10 * n + v)%N
                   | _ => None
                   end) l None = None)
      by (induction l; simpl; auto).
    destruct acc; apply Hnone.
  - now apply IH.
Qed.

Lemma year_text_elements_raises (py : Runtime) (page : Page) (elem : Element) :
  In elem (page_text_elements page) ->
  is_year_text py (clean_text (Some (elem_text elem))) = None ->
  year_text_elements py page = None.
Proof.
  intros Hin Hraise. unfold year_text_elements.
  apply for_each_raises with (a := elem); [exact Hin|].
  intros s. now rewrite Hraise.
Qed.

(** X14. When no clickable selector gives an anchor and the page has an
    element whose cleaned text is four digit characters of which one is
    not a decimal digit, [int] raises in the whole-text scan and the
    exception leaves [scrape_data]: the run returns no records, parses
    no table and leaves the scraper as it was. *)
Theorem text_scan_raises_on_non_decimal_digit (py : Runtime) (page : Page)
    (self : Scraper) (elem : Element) (c : char) (v : N) :
  clickable_year_elements page selectors_to_try = [] ->
  In elem (page_text_elements page) ->
  isdigit py (clean_text (Some (elem_text elem))) = true ->
  List.length (clean_text (Some (elem_text elem))) = 4 ->
  In c (clean_text (Some (elem_text elem))) ->
  char_digit py c = Some (false, v) ->
  scrape_data py page self = (None, self).
Proof.
  intros Hclick Hin Hdigit Hlen Hc Hv.
  unfold scrape_data, find_year_elements. rewrite Hclick. cbn [truthy_list negb].
  rewrite (year_text_elements_raises py page elem Hin); [reflexivity|].
  unfold is_year_text. rewrite Hdigit, Hlen. cbn [Nat.eqb andb].
  now rewrite (int_of_digits_raises py _ c Hc Hv).
Qed.

Lemma text_scan_raises_on_non_decimal_digit_witness :
  scrape_data py_superscript page_superscript scraper_init
  = (None, scraper_init).
Proof.
  apply (@text_scan_raises_on_non_decimal_digit py_superscript page_superscript
           scraper_init anchor_superscript 178%N 2%N).
  - reflexivity.
  - right. left. reflexivity.
  - reflexivity.
  - reflexivity.
  - left. reflexivity.
  - reflexivity.
Defined.

(** ** The run over the year anchors *)

Lemma extract_year_data_records (py : Runtime) (elem : Element) (ml : MaxLinks) :
  fst (extract_year_data py elem
         (year_label (clean_text (Some (elem_text elem)))) ml)
  = anchor_records py elem.
Proof.
  unfold extract_year_data, anchor_records.
  destruct (find_table elem); [apply extract_table_data_records | reflexivity].
Qed.

Lemma process_year_elements_all_data (py : Runtime) (elems : list Element)
    (self : Scraper) :
  all_data (process_year_elements py elems self)
  = all_data self ++ flat_map (anchor_records py) elems.
Proof.
  unfold process_year_elements.
  revert self; induction elems as [|elem elems IH]; intros self.
  - simpl. now rewrite app_nil_r.
  - cbn [fold_left flat_map].
    pose proof (extract_year_data_records py elem (max_links self)) as Hrec.
    destruct (extract_year_data py elem _ (max_links self)) as [data ml].
    rewrite IH. cbn [all_data fst] in *. now rewrite Hrec, <- app_assoc.
Qed.



(** ** Texts that clean to the empty string *)

Lemma cons_word_not_nil (c : char) (ws : list str) : cons_word c ws <> [].
Proof. destruct ws; discriminate. Qed.

Lemma split_nil (s : str) :
  split s = [] <-> Forall (fun c => isspace c = true) s.
Proof.
  induction s as [|c s IH]; [split; [constructor | reflexivity]|].
  simpl. destruct (isspace c) eqn:Hc.
  - rewrite IH. split; [now constructor | now inversion 1].
  - split.
    + destruct s as [|d s']; [discriminate|].
      destruct (isspace d); [discriminate|].
      intros H. now apply cons_word_not_nil in H.
    + inversion 1; congruence.
Qed.

Lemma replace_from_in (old new s : str) (skip : nat) (c : char) :
  In c (replace_from old new skip s) -> In c new \/ In c s.
Proof.
  revert skip; induction s as [|d s IH]; intros skip; simpl; [tauto|].
  destruct skip as [|skip].
  - destruct (startswith old (d :: s)).
    + rewrite in_app_iff. intros [H|H]; [now left|].
      apply IH in H. tauto.
    + intros [->|H]; [tauto|]. apply IH in H. tauto.
  - intros H. apply IH in H. tauto.
Qed.

Lemma unescape_nbsp_in (t : str) (c : char) :
  In c (unescape_nbsp t) -> c = 32%N \/ In c t.
Proof.
  unfold unescape_nbsp, replace. intros H.
  apply replace_from_in in H as [[<-|[]]|H]; [now left|].
  apply replace_from_in in H as [[<-|[]]|H]; [now left | now right].
Qed.

(** X17. [_clean_text] gives the empty string exactly when the text,
    its non-breaking-space spellings replaced, holds nothing but
    whitespace; in particular a text made of whitespace characters only
    cleans to the empty string, and is then treated as an empty cell. *)
Theorem clean_text_empty (t : str) :
  (clean_text (Some t) = [] <->
   Forall (fun c => isspace c = true) (unescape_nbsp t))
  /\ (Forall (fun c => isspace c = true) t -> clean_text (Some t) = []).
Proof.
  assert (Hiff : clean_text (Some t) = [] <->
                 Forall (fun c => isspace c = true) (unescape_nbsp t)).
  { rewrite clean_text_words, <- split_nil.
    pose proof (split_words (unescape_nbsp t)) as Hws.
    destruct (split (unescape_nbsp t)) as [|w ws] eqn:E.
    - split; reflexivity.
    - destruct (join_words_head Hws) as (c & s & Hj & _); [discriminate|].
      rewrite Hj. split; discriminate. }
  split; [exact Hiff|].
  intros Hall. apply Hiff. apply Forall_forall. intros c Hc.
  apply unescape_nbsp_in in Hc as [->|Hc]; [reflexivity|].
  rewrite Forall_forall in Hall. now apply Hall.
Qed.

Lemma clean_text_empty_witness :
  clean_text (Some ([160; 9; 32; 8195; 10]%N)) = [].
Proof.
  apply (proj2 (clean_text_empty [160; 9; 32; 8195; 10]%N)).
  repeat constructor.
Defined.

(** ** What a run keeps of the scraper *)

(** X18. A run of [scrape_data] that returns records returns the
    accumulated list of the scraper, which is the list it had before the
    run followed by the records the run added: records of an earlier run
    on the same scraper are kept, in order, ahead of the new ones.  A run
    that raises leaves the scraper as it was. *)
Theorem scrape_data_appends (py : Runtime) (page : Page) (self : Scraper) :
  (forall records self',
      scrape_data py page self = (Some records, self') ->
      records = all_data self'
      /\ exists added, records = all_data self ++ added)
  /\ (forall self', scrape_data py page self = (None, self') -> self' = self).
Proof.
  unfold scrape_data. destruct (find_year_elements py page) as [elems|].
  - split; [|destruct (negb (truthy_list elems)); discriminate].
    intros records self' H.
    destruct (negb (truthy_list elems)).
    + destruct (truthy_list (page_tables page)); injection H as <- <-.
      * split; [reflexivity|]. rewrite process_tables_all_data. eauto.
      * split; [reflexivity|]. exists []. now rewrite app_nil_r.
    + injection H as <- <-. split; [reflexivity|].
      rewrite process_year_elements_all_data. eauto.
  - split; [discriminate|]. now intros self' [= <-].
Qed.

(** ** The table parser, row by row *)

(** X19. A row with fewer than 4 cells gets no record and leaves the
    Schema State as it is.  The records the table parser returns are
    those the row parser gives for the rows in document order: all the
    rows of a [tbody], the rows without [th] of a table without [tbody].
    A row on which the row parser returns no record, rejected or failing,
    is left out and nothing else changes, in a table without [tbody] as
    long as the [th] lookup of that row does not raise: the table gives
    the records and the Schema State it gives without that row.  In a
    table without [tbody] a [th] lookup that raises fails the table as a
    whole: no record, and the Schema State as it was. *)
Theorem table_records_row_by_row (py : Runtime) :
  (forall row cells year ml,
      row_cells row = Some cells -> List.length cells < 4 ->
      extract_row_data py row year ml = (None, ml))
  /\ (forall row year ml,
        fst (extract_row_data py row year ml) = row_record py row year)
  /\ (forall rows year ml displayed,
        fst (extract_table_data py
               {| table_displayed := displayed; table_rows := Tbody rows |}
               year ml)
        = flat_map (row_records py year) rows)
  /\ (forall rows year ml displayed,
        forallb th_readable rows = true ->
        fst (extract_table_data py
               {| table_displayed := displayed; table_rows := NoTbody rows |}
               year ml)
        = flat_map (row_records py year) (filter without_th rows))
  /\ (forall rows1 row rows2 year ml displayed,
        fst (extract_row_data py row year ml) = None ->
        extract_table_data py
          {| table_displayed := displayed;
             table_rows := Tbody (rows1 ++ row :: rows2) |} year ml
        = extract_table_data py
            {| table_displayed := displayed;
               table_rows := Tbody (rows1 ++ rows2) |} year ml
        /\ (th_readable row = true ->
            extract_table_data py
              {| table_displayed := displayed;
                 table_rows := NoTbody (rows1 ++ row :: rows2) |} year ml
            = extract_table_data py
                {| table_displayed := displayed;
                   table_rows := NoTbody (rows1 ++ rows2) |} year ml))
  /\ (forall rows year ml displayed,
        forallb th_readable rows = false ->
        extract_table_data py
          {| table_displayed := displayed; table_rows := NoTbody rows |}
          year ml
        = ([], ml)).
Proof.
  split; [|split; [|split; [|split; [|split]]]].
  - intros row cells year ml Hcells Hlen. unfold extract_row_data.
    rewrite Hcells. apply Nat.ltb_lt in Hlen. now rewrite Hlen.
  - intros row year ml. now rewrite extract_row_data_split.
  - intros rows year ml displayed. rewrite extract_table_data_rows.
    cbn [parsed_rows table_rows]. apply extract_rows_records.
  - intros rows year ml displayed Hth. rewrite extract_table_data_rows.
    cbn [parsed_rows table_rows]. rewrite rows_without_th_filter, Hth.
    apply extract_rows_records.
  - intros rows1 row rows2 year ml displayed Hnone.
    rewrite extract_row_data_split in Hnone. cbn [fst] in Hnone.
    rewrite !extract_table_data_rows. cbn [parsed_rows table_rows]. split.
    + now apply extract_rows_skip.
    + intros Hth. rewrite !rows_without_th_filter.
      rewrite (forallb_th_readable_skip rows1 rows2 row Hth).
      destruct (forallb th_readable (rows1 ++ rows2)); [|reflexivity].
      rewrite !filter_app. cbn [filter].
      destruct (without_th row); [now apply extract_rows_skip | reflexivity].
  - intros rows year ml displayed Hth. rewrite extract_table_data_rows.
    cbn [parsed_rows table_rows]. now rewrite rows_without_th_filter, Hth.
Qed.

Lemma table_records_row_by_row_witness :
  extract_row_data py0 row_three_cells (lit "2020") max_links_init
  = (None, max_links_init)
  /\ extract_table_data py0
       (a_table true [row_one_link; row_three_cells; row_three_links])
       (lit "2020") max_links_init
     = extract_table_data py0 (a_table true [row_one_link; row_three_links])
         (lit "2020") max_links_init
  /\ extract_table_data py0
       (table_without_tbody [header_row; row_one_link; row_three_cells])
       (lit "2020") max_links_init
     = extract_table_data py0 (table_without_tbody [header_row; row_one_link])
         (lit "2020") max_links_init
  /\ fst (extract_table_data py0
            (table_without_tbody [header_row; row_one_link; row_three_cells])
            (lit "2020") max_links_init)
     = [record_one_link].
Proof.
  pose proof (table_records_row_by_row py0)
    as (Hshort & _ & _ & Hrecords & Hskip & _).
  assert (H : extract_row_data py0 row_three_cells (lit "2020") max_links_init
              = (None, max_links_init)).
  { apply (Hshort row_three_cells
             [a_cell "ASIC Gazette" []; a_cell "Business Gazette" [];
              a_cell "Notes" []]); [reflexivity | simpl; lia]. }
  split; [exact H|]. split; [|split].
  - apply (proj1 (Hskip [row_one_link] row_three_cells [row_three_links]
                    (lit "2020") max_links_init (Some true)
                    ltac:(rewrite H; reflexivity))).
  - apply (proj2 (Hskip [header_row; row_one_link] row_three_cells []
                    (lit "2020") max_links_init (Some true)
                    ltac:(rewrite H; reflexivity))).
    reflexivity.
  - unfold table_without_tbody. rewrite Hrecords; reflexivity.
Defined.
